(** * Security dashboards plugin: authentication dispatch and the role list panel

    A shallow embedding of

    - [src/server/auth/auth_handler_factory.ts]: the dispatcher that maps the
      configured authentication type to one strategy constructor and
      instantiates it with the shared dependencies;
    - [src/public/apps/configuration/panels/role-list.tsx]: the state handlers
      of the [RoleList] panel (initial fetch, delete, actions menu), its
      columns, search filters, multi-tenancy effect and what it renders;
    - the session-cookie lifecycle of the specification (codec with its
      serialized form, storage, request interceptor), whose implementation is
      outside the two files above and is modelled from the specification's
      text.

    The definitions come first; the properties proved of them are in the
    second part, one module of facts for each module of definitions. *)

From Stdlib Require Import ZArith Ascii DecimalString DecimalZ.
From stdpp Require Import base option list strings gmap.

Local Open Scope string_scope.

(** ** JavaScript control flow: returned values and thrown errors

    A computation either completes with a value or throws. The state [S] is
    threaded explicitly; what a throwing computation did to the state before
    it threw is kept. *)

Module Js.

Inductive completion (E A : Type) : Type :=
| Returned (a : A)
| Thrown (e : E).
Arguments Returned {E A} a.
Arguments Thrown {E A} e.

Definition M (S E A : Type) : Type := S -> completion E A * S.

Definition ret {S E A} (a : A) : M S E A := fun s => (Returned a, s).

Definition throw {S E A} (e : E) : M S E A := fun s => (Thrown e, s).

Definition bind {S E A B} (m : M S E A) (k : A -> M S E B) : M S E B :=
  fun s =>
    match m s with
    | (Returned a, s') => k a s'
    | (Thrown e, s') => (Thrown e, s')
    end.

(** [try { body } catch (e) { handler e } finally { finalizer }], for a
    finalizer that neither throws nor returns. *)
Definition try_catch_finally {S E A}
    (body : M S E A) (handler : E -> M S E A) (finalizer : S -> S) : M S E A :=
  fun s =>
    let '(c, s') :=
      match body s with
      | (Returned a, s1) => (Returned a, s1)
      | (Thrown e, s1) => handler e s1
      end in
    (c, finalizer s').

(** A state update that cannot fail, such as a React state setter. *)
Definition modify {S E} (f : S -> S) : M S E unit := fun s => (Returned tt, f s).

(** Reading the current state. *)
Definition get {S E} : M S E S := fun s => (Returned s, s).

End Js.

Notation "'let!' x ':=' m 'in' k" := (Js.bind m (fun x => k))
  (at level 10, x name, m at level 100, k at level 200, only parsing).
Notation "'do!' m 'in' k" := (Js.bind m (fun _ => k))
  (at level 10, m at level 100, k at level 200, only parsing).

(** ** The authentication type identifiers *)

(** Modelled from the spec: the [AuthType] constants of [../../common], which
    [auth_handler_factory.ts] imports and which are not among the source
    files. The specification lists the identifiers as [basicauth], [jwt],
    [openid], [saml] and [proxy]. *)
Module AuthType.
Definition BASIC : string := "basicauth".
Definition JWT : string := "jwt".
Definition OPEN_ID : string := "openid".
Definition SAML : string := "saml".
Definition PROXY : string := "proxy".
End AuthType.

(** ** [src/server/auth/auth_handler_factory.ts] *)

Module AuthHandlerFactory.

(** The five classes the switch can select. Each implements
    [IAuthHandlerConstructor]; their bodies are in other files. *)
Inductive IAuthHandlerConstructor : Type :=
| BasicAuthentication
| JwtAuthentication
| OpenIdAuthentication
| SamlAuthentication
| ProxyAuthentication.

#[global] Instance IAuthHandlerConstructor_eq_dec : EqDecision IAuthHandlerConstructor.
Proof. solve_decision. Defined.

Section Factory.
(** Run-time values: the handles of the collaborators. At run time every
    argument is a plain JavaScript value, so one type stands for all six
    dependencies. *)
Context {value : Type}.

(** What [new ctor(a1, a2, a3, a4, a5, a6)] produces: the class and the
    value received in each of the six constructor positions, named after
    the parameters of [createAuthentication]. *)
Record IAuthenticationType : Type := mkAuth {
  ctor : IAuthHandlerConstructor;
  arg_config : value;
  arg_sessionStorageFactory : value;
  arg_router : value;
  arg_esClient : value;
  arg_coreSetup : value;
  arg_logger : value
}.

(** The state threaded through the factory: the strategy instances
    constructed so far, oldest first. Whatever a constructor does (route
    registration included) happens only when an entry is added here. *)
Definition Constructed : Type := list IAuthenticationType.

(** Errors are [Error] objects, identified by their message. *)
Definition F (A : Type) : Type := Js.M Constructed string A.

(** [new ctor(...)]. *)
Definition new (c : IAuthHandlerConstructor) (a1 a2 a3 a4 a5 a6 : value)
  : F IAuthenticationType :=
  fun built =>
    let inst := mkAuth c a1 a2 a3 a4 a5 a6 in
    (Js.Returned inst, (built ++ [inst])%list).

Definition createAuthentication
    (ctor : IAuthHandlerConstructor)
    (config sessionStorageFactory router esClient coreSetup logger : value)
  : F IAuthenticationType :=
  new ctor config sessionStorageFactory router esClient coreSetup logger.

(** The [switch] compares [authType] with each case label in turn using
    strict equality; the first label is the empty string. The parameter
    [core] does not occur in the body: the call to [createAuthentication]
    names [esClient] in both the fifth and the sixth position. *)
Definition getAuthenticationHandler
    (authType : string)
    (router config core esClient securitySessionStorageFactory logger : value)
  : F IAuthenticationType :=
  let! authHandlerType :=
    (if String.eqb authType EmptyString then Js.ret BasicAuthentication
     else if String.eqb authType "basicauth" then Js.ret BasicAuthentication
     else if String.eqb authType AuthType.JWT then Js.ret JwtAuthentication
     else if String.eqb authType AuthType.OPEN_ID then Js.ret OpenIdAuthentication
     else if String.eqb authType AuthType.SAML then Js.ret SamlAuthentication
     else if String.eqb authType AuthType.PROXY then Js.ret ProxyAuthentication
     else Js.throw ("Unsupported authentication type: " ++ authType)) in
  let! auth := createAuthentication
            authHandlerType
            config
            securitySessionStorageFactory
            router
            esClient
            esClient
            logger in
  Js.ret auth.

End Factory.

Arguments IAuthenticationType value : clear implicits.
Arguments Constructed value : clear implicits.

End AuthHandlerFactory.

(** ** [src/public/apps/configuration/panels/role-list.tsx] *)

Module RoleList.

(** A row of the table. The interface is declared in
    [../utils/role-list-utils]; the fields are the ones this panel reads
    (the [field] of each column, [roleName] and [reserved]). Rows are
    JavaScript objects: [ref] is the identity of the object, which is what
    lodash compares. *)
Record RoleListing : Type := mkRole {
  ref : nat;
  roleName : string;
  reserved : bool;
  clusterPermissions : list string;
  indexPermissions : list string;
  internalUsers : list string;
  backendRoles : list string;
  tenantPermissions : list string
}.

(** The value caught by [catch (e)]: an error object that may carry the HTTP
    response of a failed request. *)
Record HttpResponse : Type := mkResponse { status : Z }.
Record JsError : Type := mkError { message : string; response : option HttpResponse }.

(** The component's state: the five [useState] cells the handlers write,
    and the open flag of the actions popover held by
    [useContextMenuState]. *)
Record State : Type := mkState {
  roleData : list RoleListing;
  errorFlag : bool;
  selection : list RoleListing;
  loading : bool;
  accessErrorFlag : bool;
  actionsMenuOpen : bool
}.

(** The arguments of the [useState] calls. *)
Definition initialState : State :=
  mkState [] false [] false false false.

Definition setRoleData (v : list RoleListing) (s : State) : State :=
  mkState v (errorFlag s) (selection s) (loading s) (accessErrorFlag s) (actionsMenuOpen s).
Definition setErrorFlag (v : bool) (s : State) : State :=
  mkState (roleData s) v (selection s) (loading s) (accessErrorFlag s) (actionsMenuOpen s).
Definition setSelection (v : list RoleListing) (s : State) : State :=
  mkState (roleData s) (errorFlag s) v (loading s) (accessErrorFlag s) (actionsMenuOpen s).
Definition setLoading (v : bool) (s : State) : State :=
  mkState (roleData s) (errorFlag s) (selection s) v (accessErrorFlag s) (actionsMenuOpen s).
Definition setAccessErrorFlag (v : bool) (s : State) : State :=
  mkState (roleData s) (errorFlag s) (selection s) (loading s) v (actionsMenuOpen s).
Definition closeActionsMenu (s : State) : State :=
  mkState (roleData s) (errorFlag s) (selection s) (loading s) (accessErrorFlag s) false.

(** Handlers run over the component state and may throw a [JsError]. *)
Definition P (A : Type) : Type := Js.M State JsError A.

(** [await p] for a promise that has settled as [c]. *)
Definition await {A} (c : Js.completion JsError A) : P A := fun s => (c, s).

(** [console.log(e)]: no effect on the component. *)
Definition console_log (e : JsError) : P unit := Js.ret tt.

(** SameValueZero on two rows: both are objects, so they are equal exactly
    when they are the same object. *)
Definition SameValueZero (a b : RoleListing) : bool := Nat.eqb (ref a) (ref b).

(** lodash [difference(array, values)]: the elements of [array], in order,
    that are not SameValueZero-equal to any element of [values]. *)
Definition difference (array values : list RoleListing) : list RoleListing :=
  List.filter (fun a => negb (existsb (SameValueZero a) values)) array.

(** [Array.prototype.includes] on numbers. *)
Definition includes (l : list Z) (x : Z) : bool := existsb (Z.eqb x) l.

Section Panel.
(** The collaborators the handlers call; [props.coreStart.http] is fixed
    for the life of the component and left implicit. Each request is given
    by how its promise settles. *)
Context {RawRoleData RawRoleMappingData : Type}.
Variable dataSource_id : string.
Variable fetchRole : string -> Js.completion JsError RawRoleData.
Variable fetchRoleMapping : string -> Js.completion JsError RawRoleMappingData.
Variable transformRoleData :
  RawRoleData -> RawRoleMappingData -> Js.completion JsError (list RoleListing).
Variable requestDeleteRoles : list string -> string -> Js.completion JsError unit.

(** The [try] block of [fetchData]. *)
Definition fetchData_try : P unit :=
  do! Js.modify (setLoading true) in
  let! rawRoleData := await (fetchRole dataSource_id) in
  let! rawRoleMappingData := await (fetchRoleMapping dataSource_id) in
  let! processedData := await (transformRoleData rawRoleData rawRoleMappingData) in
  do! Js.modify (setRoleData processedData) in
  do! Js.modify (setErrorFlag false) in
  Js.modify (setAccessErrorFlag false).

(** The [catch (e)] block of [fetchData]. *)
Definition fetchData_catch (e : JsError) : P unit :=
  do! console_log e in
  do! (match response e with
       | Some r =>
           if includes [400; 403]%Z (status r)
           then Js.modify (setAccessErrorFlag true)
           else Js.ret tt
       | None => Js.ret tt
       end) in
  Js.modify (setErrorFlag true).

Definition fetchData : P unit :=
  Js.try_catch_finally fetchData_try fetchData_catch (setLoading false).

(** [handleDelete] reads [selection] and [roleData] of the render it was
    created in. *)
Definition handleDelete : P unit :=
  let! st := Js.get in
  let rolesToDelete := List.map roleName (selection st) in
  Js.try_catch_finally
    (do! await (requestDeleteRoles rolesToDelete dataSource_id) in
     do! Js.modify (setRoleData (difference (roleData st) (selection st))) in
     Js.modify (setSelection []))
    (fun e => console_log e)
    closeActionsMenu.

End Panel.

(** The [disabled] attribute of the three buttons of [actionsMenuItems].
    [None] stands for the [TypeError] of reading a property of
    [undefined]. *)
Definition edit_disabled (selection : list RoleListing) : option bool :=
  if negb (Nat.eqb (length selection) 1) then Some true
  else reserved <$> selection !! 0%nat.

Definition duplicate_disabled (selection : list RoleListing) : option bool :=
  Some (negb (Nat.eqb (length selection) 1)).

Definition delete_disabled (selection : list RoleListing) : option bool :=
  Some (Nat.eqb (length selection) 0 || existsb reserved selection).

Record MenuItem : Type := mkItem { key : string; disabled : option bool }.

Definition actionsMenuItems (selection : list RoleListing) : list MenuItem :=
  [ mkItem "edit" (edit_disabled selection);
    mkItem "duplicate" (duplicate_disabled selection);
    mkItem "delete" (delete_disabled selection) ].

End RoleList.

(** ** [role-list.tsx]: columns, search filters, click handlers and rendering *)

Module RoleListView.
Import RoleList.

(** The [render] of a column: the link to the role's page, the truncated list
    and the customization badge. *)
Inductive ColumnRender : Type :=
| RoleLink
| TruncatedListView
| Customization.

(** A column of the table. [None] is a property the object literal does not
    have. *)
Record Column : Type := mkColumn {
  field : string;
  name : string;
  render : ColumnRender;
  sortable : option bool;
  truncateText : option bool
}.

Definition getColumnList (multitenancyEnabled : bool) : list Column :=
  [ mkColumn "roleName" "Role" RoleLink (Some true) None;
    mkColumn "clusterPermissions" "Cluster permissions" TruncatedListView None (Some true);
    mkColumn "indexPermissions" "Index" TruncatedListView None (Some true);
    mkColumn "internalUsers" "Internal users" TruncatedListView None None;
    mkColumn "backendRoles" "Backend roles" TruncatedListView None None ]
  ++ (if multitenancyEnabled
      then [ mkColumn "tenantPermissions" "Tenants" TruncatedListView None None ]
      else [])
  ++ [ mkColumn "reserved" "Customization" Customization None None ].

(** The [multiSelect] of a search filter: ['or'] or [false]. *)
Inductive MultiSelect : Type := MultiSelectOr | MultiSelectOff.

Section Filters.
(** [buildSearchFilterOptions] is declared in [../utils/role-list-utils];
    [FilterOption] is what it returns a list of. *)
Context {FilterOption : Type}.
Variable buildSearchFilterOptions : list RoleListing -> string -> list FilterOption.

(** The options of a filter: the ones built from the role data, or the two
    literal options [{value: true, ...}] and [{value: false, ...}]. *)
Inductive FilterOptions : Type :=
| BuiltOptions (options : list FilterOption)
| ValueOptions (values : list bool).

Record SearchFilter : Type := mkFilter {
  filter_type : string;
  filter_field : string;
  filter_name : string;
  multiSelect : MultiSelect;
  options : FilterOptions
}.

(** The [filters] the effect on [roleData] and [isMultiTenancyEnabled] passes
    to [setSearchOptions]. *)
Definition searchFilters (roleData : list RoleListing) (isMultiTenancyEnabled : bool)
  : list SearchFilter :=
  [ mkFilter "field_value_selection" "clusterPermissions" "Cluster permissions" MultiSelectOr
      (BuiltOptions (buildSearchFilterOptions roleData "clusterPermissions"));
    mkFilter "field_value_selection" "indexPermissions" "Index" MultiSelectOr
      (BuiltOptions (buildSearchFilterOptions roleData "indexPermissions"));
    mkFilter "field_value_selection" "internalUsers" "Internal users" MultiSelectOr
      (BuiltOptions (buildSearchFilterOptions roleData "internalUsers"));
    mkFilter "field_value_selection" "backendRoles" "Backend roles" MultiSelectOr
      (BuiltOptions (buildSearchFilterOptions roleData "backendRoles")) ]
  ++ (if isMultiTenancyEnabled
      then [ mkFilter "field_value_selection" "tenantPermissions" "Tenants" MultiSelectOr
               (BuiltOptions (buildSearchFilterOptions roleData "tenantPermissions")) ]
      else [])
  ++ [ mkFilter "field_value_selection" "reserved" "Customization" MultiSelectOff
         (ValueOptions [true; false]) ].

End Filters.

Arguments FilterOptions FilterOption : clear implicits.
Arguments SearchFilter FilterOption : clear implicits.

(** The multi-tenancy effect. Its state is the [isMultiTenancyEnabled] cell,
    created by [useState(true)]. *)
Definition isMultiTenancyEnabled_initial : bool := true.

(** What [getDashboardsInfoSafe] resolves to: an object whose
    [multitenancy_enabled] may be missing, or [undefined]. *)
Record DashboardsInfo : Type := mkInfo { multitenancy_enabled : option bool }.

(** [Boolean(x)] for [x] a boolean or [undefined]. *)
Definition truthy (x : option bool) : bool :=
  match x with
  | Some b => b
  | None => false
  end.

(** [try { body } catch (e) { handler e }]. *)
Definition try_catch {S E A} (body : Js.M S E A) (handler : E -> Js.M S E A) : Js.M S E A :=
  fun s =>
    match body s with
    | (Js.Returned a, s1) => (Js.Returned a, s1)
    | (Js.Thrown e, s1) => handler e s1
    end.

Section MultiTenancy.
Variable getDashboardsInfoSafe : Js.completion JsError (option DashboardsInfo).
(** [props.config.multitenancy.enabled]. *)
Variable config_multitenancy_enabled : bool.

(** [dashboardsInfo?.multitenancy_enabled && props.config.multitenancy.enabled]
    under [Boolean]: the left operand is [undefined] when [dashboardsInfo]
    is. *)
Definition fetchIsMultiTenancyEnabled : Js.M bool JsError unit :=
  try_catch
    (let! dashboardsInfo := (fun s => (getDashboardsInfoSafe, s)) in
     Js.modify (fun _ =>
       truthy (info ← dashboardsInfo; multitenancy_enabled info)
       && config_multitenancy_enabled))
    (fun e => Js.ret tt).

End MultiTenancy.

Section Navigation.
(** [ResourceType] and [Action] are enumerations of other files, and
    [buildHashUrl] is declared in [../utils/url-builder]; its third argument
    is optional. *)
Context {ResourceType Action : Type}.
Variable ResourceType_roles : ResourceType.
Variables Action_edit Action_duplicate : Action.
Variable buildHashUrl : ResourceType -> Action -> option string -> string.

(** The [onClick] of the Edit button: the value assigned to
    [window.location.href]. [None] stands for the [TypeError] of
    [selection[0].roleName] when [selection[0]] is [undefined]. *)
Definition edit_onClick (selection : list RoleListing) : option string :=
  r ← selection !! 0%nat;
  Some (buildHashUrl ResourceType_roles Action_edit (Some (roleName r))).

(** The [onClick] of the Duplicate button. *)
Definition duplicate_onClick (selection : list RoleListing) : option string :=
  r ← selection !! 0%nat;
  Some (buildHashUrl ResourceType_roles Action_duplicate (Some (roleName r))).

End Navigation.

(** [roleData === []]: the array held in the state is compared by reference
    with an array the expression has just created, so the test is false for
    every [roleData]. *)
Definition is_new_empty_array (roleData : list RoleListing) : bool := false.

(** The properties of [EuiInMemoryTable] computed from the state. *)
Record TableProps : Type := mkTable {
  table_loading : bool;
  table_columns : list Column;
  table_items : list RoleListing;
  table_itemId : string;
  table_error : string
}.

(** What the component returns below the top navigation: the page header
    with its count, and one of the loading placeholder, the access error
    component and the page content with the table. *)
Inductive PageBody : Type :=
| LoadingContent
| AccessErrorComponent (loading : bool)
| PageContent (table : TableProps).

Record Rendered : Type := mkRendered { header_count : nat; page_body : PageBody }.

Definition renderRoleList (st : State) (isMultiTenancyEnabled : bool) : Rendered :=
  mkRendered
    (length (roleData st))
    (if loading st then LoadingContent
     else if accessErrorFlag st then AccessErrorComponent (loading st)
     else PageContent
            (mkTable
               (is_new_empty_array (roleData st) && negb (errorFlag st))
               (getColumnList isMultiTenancyEnabled)
               (roleData st)
               "roleName"
               (if errorFlag st
                then "Load data failed, please check console log for more detail."
                else EmptyString))).

End RoleListView.

(** ** The session lifecycle of the specification

    The session cookie codec, the session storage and the request interceptor
    are implemented outside the two source files above. Every definition of
    this module follows the specification's text. *)

Module Session.

(** Modelled from the spec: the data model's [AuthType], a closed
    enumeration of [basicauth], [jwt], [openid], [saml] and [proxy]. *)
Inductive AuthType : Type := basicauth | jwt | openid | saml | proxy.

#[global] Instance AuthType_eq_dec : EqDecision AuthType.
Proof. solve_decision. Defined.

(** Modelled from the spec: [SecuritySessionCookie], the persisted session
    state (security_cookie is imported by the factory, not included):
    subject identity, set of backend role names, authentication-type tag,
    issuance timestamp, expiry timestamp and a strategy-specific opaque
    payload. *)
Record SecuritySessionCookie : Type := mkSession {
  username : string;
  roles : gset string;
  authType : AuthType;
  issuedAt : Z;
  expiryTime : Z;
  payload : string
}.

(** Modelled from the spec: the contract's [AuthResult], one of
    [Authenticated{identity, roles}], [Challenge{response-to-send}] and
    [Rejected{reason}]. *)
Inductive AuthResult : Type :=
| Authenticated (identity : string) (roles : gset string)
| Challenge (response_to_send : string)
| Rejected (reason : string).

(** Modelled from the spec: a request as the session layer sees it. Session
    Storage is a keyed store for "a given request/response pair": [client]
    is that key, [credentials] the transient protocol-specific material. *)
Record Request : Type := mkRequest { client : string; credentials : string }.

(** Modelled from the spec: the Authentication Strategy contract of section
    4.2, [authenticate] and [isValidCookie], with the strategy-specific
    opaque payload it puts in a session it creates. Outbound calls are part
    of what [authenticate] computes. *)
Record Strategy : Type := mkStrategy {
  authenticate : Request -> AuthResult;
  isValidCookie : SecuritySessionCookie -> bool;
  opaquePayload : Request -> string
}.

(** Modelled from the spec: the configuration the session layer consumes:
    the single active authentication type, and the signing key and cookie
    TTL among the per-strategy settings of section 6. *)
Record Config : Type := mkConfig {
  activeType : AuthType;
  signingKey : string;
  cookieTTL : Z
}.

Section Codec.
(** The codec is written over any serializer and any integrity primitive:
    [wire] is the serialized form, [mac] the type of integrity tags. The
    serializer of this model is in [SessionWire] below. *)
Context {wire mac : Type} `{EqDecision mac}.
Variable serialize : SecuritySessionCookie -> wire.
Variable deserialize : wire -> option SecuritySessionCookie.
Variable sign : string -> wire -> mac.

(** The cookie value: the serialized session and its integrity tag. *)
Record CookieValue : Type := mkCookie { body : wire; signature : mac }.

(** Modelled from the spec: section 4.3, "Encoding: session object
    serialized, then integrity-protected (signed and/or encrypted) before
    being placed in the cookie value". *)
Definition encode (key : string) (s : SecuritySessionCookie) : CookieValue :=
  let w := serialize s in mkCookie w (sign key w).

(** Modelled from the spec: "a session cookie whose expiry timestamp is in
    the past" is an expired one. *)
Definition expired (now : Z) (s : SecuritySessionCookie) : bool :=
  (expiryTime s <? now)%Z.

(** Modelled from the spec: section 4.3, "Decoding: on read,
    signature/encryption is verified before any field is trusted;
    verification failure is treated identically to no session", and
    section 7, a corrupt, forged or expired cookie is "no session". *)
Definition decode (key : string) (now : Z) (c : CookieValue)
  : option SecuritySessionCookie :=
  if decide (signature c = sign key (body c)) then
    s ← deserialize (body c);
    if expired now s then None else Some s
  else None.

(** The keyed store: the cookie value held for each client. *)
Definition Storage : Type := gmap string CookieValue.

(** Modelled from the spec: the storage contract [get(request) ->
    Option<Session>] with the invariant of section 4.3, "the
    authentication-type tag embedded in the session must be re-validated
    against the currently active AuthType on every read". *)
Definition get (cfg : Config) (now : Z) (store : Storage) (req : Request)
  : option SecuritySessionCookie :=
  c ← store !! client req;
  s ← decode (signingKey cfg) now c;
  if decide (authType s = activeType cfg) then Some s else None.

(** Modelled from the spec: [set(response, session)]. *)
Definition set (cfg : Config) (store : Storage) (req : Request)
    (s : SecuritySessionCookie) : Storage :=
  <[client req := encode (signingKey cfg) s]> store.

(** Modelled from the spec: [clear(response)]. *)
Definition clear (store : Storage) (req : Request) : Storage :=
  delete (client req) store.

(** Modelled from the spec: the session a strategy's success establishes:
    its tag is the active type, it is issued now and expires one cookie
    TTL later. *)
Definition newSession (cfg : Config) (strategy : Strategy) (now : Z)
    (req : Request) (identity : string) (rs : gset string)
  : SecuritySessionCookie :=
  mkSession identity rs (activeType cfg) now (now + cookieTTL cfg)%Z
            (opaquePayload strategy req).

(** Modelled from the spec: the Request Interceptor of section 4.4, "read
    session; if valid and not expired, attach identity/roles to the
    request context and pass through; else invoke the active Strategy's
    authenticate; on Authenticated, establish/update the session and pass
    through; on Challenge, short-circuit and send the challenge response;
    on Rejected, short-circuit with an authentication-failure
    response". The result is paired with the storage it leaves. *)
Definition intercept (cfg : Config) (strategy : Strategy) (now : Z)
    (req : Request) (store : Storage) : AuthResult * Storage :=
  let run_strategy :=
    match authenticate strategy req with
    | Authenticated identity rs =>
        (Authenticated identity rs,
         set cfg store req (newSession cfg strategy now req identity rs))
    | Challenge r => (Challenge r, store)
    | Rejected r => (Rejected r, store)
    end in
  match get cfg now store req with
  | Some s =>
      if isValidCookie strategy s
      then (Authenticated (username s) (roles s), store)
      else run_strategy
  | None => run_strategy
  end.

End Codec.

Arguments CookieValue wire mac : clear implicits.
Arguments Storage wire mac : clear implicits.

End Session.

(** ** The serialized form of a session

    The specification makes serializing and deserializing the session object
    the codec's own work and fixes no wire format. In this model the
    serialized session is a string of fields; each field is written with the
    separator and the escape character escaped, and is closed by the
    separator. *)

Module SessionWire.
Import Session.

(** Modelled from the spec: the Session Cookie Codec "serializes" the session
    object. The character that closes a field, and the one that escapes it. *)
Definition separator : Ascii.ascii := ";"%char.
Definition escape_char : Ascii.ascii := "\"%char.

(** Modelled from the spec: writing one field in front of [rest]: the
    characters of [s], separator and escape character escaped, then the
    separator. *)
Fixpoint write_field (s rest : string) : string :=
  match s with
  | EmptyString => String separator rest
  | String c s' =>
      if Ascii.eqb c separator || Ascii.eqb c escape_char
      then String escape_char (String c (write_field s' rest))
      else String c (write_field s' rest)
  end.

(** Modelled from the spec: the Session Cookie Codec "deserializes". Reading
    one field: the characters up to the first separator that is not escaped,
    and what follows it. There is no field when the input ends before a
    separator or right after an escape character. *)
Fixpoint read_field (w : string) : option (string * string) :=
  match w with
  | EmptyString => None
  | String c w' =>
      if Ascii.eqb c separator then Some (EmptyString, w')
      else if Ascii.eqb c escape_char then
        match w' with
        | EmptyString => None
        | String c' w'' =>
            match read_field w'' with
            | Some (s, rest) => Some (String c' s, rest)
            | None => None
            end
        end
      else
        match read_field w' with
        | Some (s, rest) => Some (String c s, rest)
        | None => None
        end
  end.

(** Modelled from the spec: a sequence of fields, and reading [n] of them. *)
Fixpoint write_fields (l : list string) (rest : string) : string :=
  match l with
  | [] => rest
  | x :: l' => write_field x (write_fields l' rest)
  end.

Fixpoint read_fields (n : nat) (w : string) : option (list string * string) :=
  match n with
  | O => Some ([], w)
  | S n' =>
      match read_field w with
      | Some (x, w1) =>
          match read_fields n' w1 with
          | Some (xs, w2) => Some (x :: xs, w2)
          | None => None
          end
      | None => None
      end
  end.

(** Modelled from the spec: the timestamps, written in decimal. *)
Definition write_number (z : Z) : string := NilEmpty.string_of_int (Z.to_int z).

Definition read_number (s : string) : option Z :=
  option_map Z.of_int (NilEmpty.int_of_string s).

(** Modelled from the spec: the authentication-type tag, written as the
    identifier of the type. *)
Definition write_authType (t : AuthType) : string :=
  match t with
  | basicauth => "basicauth"
  | jwt => "jwt"
  | openid => "openid"
  | saml => "saml"
  | proxy => "proxy"
  end.

Definition read_authType (s : string) : option AuthType :=
  if String.eqb s "basicauth" then Some basicauth
  else if String.eqb s "jwt" then Some jwt
  else if String.eqb s "openid" then Some openid
  else if String.eqb s "saml" then Some saml
  else if String.eqb s "proxy" then Some proxy
  else None.

(** Modelled from the spec: "session object serialized": the six attributes of
    the data model in turn: identity, tag, issuance and expiry timestamps,
    opaque payload, then the number of roles and the roles. *)
Definition serialize (s : SecuritySessionCookie) : string :=
  let rs := elements (roles s) in
  write_field (username s)
    (write_field (write_authType (authType s))
       (write_field (write_number (issuedAt s))
          (write_field (write_number (expiryTime s))
             (write_field (payload s)
                (write_field (write_number (Z.of_nat (length rs)))
                   (write_fields rs EmptyString)))))).

(** Modelled from the spec: the inverse reading. It fails on a missing field,
    an unknown tag, a malformed or negative number, and on input left over
    after the last role. *)
Definition deserialize (w : string) : option SecuritySessionCookie :=
  '(u, w1) ← read_field w;
  '(t, w2) ← read_field w1;
  ty ← read_authType t;
  '(i, w3) ← read_field w2;
  issued ← read_number i;
  '(x, w4) ← read_field w3;
  expiry ← read_number x;
  '(p, w5) ← read_field w4;
  '(n, w6) ← read_field w5;
  count ← read_number n;
  if (count <? 0)%Z then None
  else
    '(rs, w7) ← read_fields (Z.to_nat count) w6;
    match w7 with
    | EmptyString => Some (mkSession u (list_to_set rs) ty issued expiry p)
    | String _ _ => None
    end.

End SessionWire.

(** * Properties *)

(** ** The dispatcher *)

Module FactoryFacts.
Import AuthHandlerFactory.

Section Dispatch.
Context {value : Type}.
Variables router config core esClient securitySessionStorageFactory logger : value.

Local Abbreviation dispatch authType :=
  (getAuthenticationHandler authType router config core esClient
     securitySessionStorageFactory logger).

(** The instance the dispatcher builds from class [c]: the argument list is
    the one written in the call to [createAuthentication]. *)
Local Abbreviation built_from c :=
  (mkAuth c config securitySessionStorageFactory router esClient esClient logger).

(** When the switch selects class [c], the dispatcher returns one new
    instance of [c] and records it as constructed. *)
Lemma dispatch_selected (authType : string) (c : IAuthHandlerConstructor)
    (built : Constructed value) :
  (if String.eqb authType EmptyString then Some BasicAuthentication
   else if String.eqb authType "basicauth" then Some BasicAuthentication
   else if String.eqb authType "jwt" then Some JwtAuthentication
   else if String.eqb authType "openid" then Some OpenIdAuthentication
   else if String.eqb authType "saml" then Some SamlAuthentication
   else if String.eqb authType "proxy" then Some ProxyAuthentication
   else None) = Some c ->
  dispatch authType built = (Js.Returned (built_from c), built ++ [built_from c])%list.
Proof.
  unfold getAuthenticationHandler, createAuthentication, new, Js.bind, Js.ret,
    Js.throw, AuthType.JWT, AuthType.OPEN_ID, AuthType.SAML, AuthType.PROXY.
  intros Hsel.
  repeat match type of Hsel with
         | (if ?b then _ else _) = _ => destruct b
         end;
    try discriminate; injection Hsel as <-; reflexivity.
Qed.

(** When no case of the switch matches, the dispatcher throws and nothing is
    constructed. *)
Lemma dispatch_default (authType : string) (built : Constructed value) :
  authType ∉ [EmptyString; "basicauth"; "jwt"; "openid"; "saml"; "proxy"] ->
  dispatch authType built
  = (Js.Thrown ("Unsupported authentication type: " ++ authType), built).
Proof.
  intros Hnot.
  assert (Hne : forall s, s ∈ [EmptyString; "basicauth"; "jwt"; "openid"; "saml"; "proxy"] ->
                          String.eqb authType s = false).
  { intros s Hs. apply String.eqb_neq. intros ->. exact (Hnot Hs). }
  unfold getAuthenticationHandler, Js.bind, Js.throw,
    AuthType.JWT, AuthType.OPEN_ID, AuthType.SAML, AuthType.PROXY.
  rewrite !Hne by (repeat first [ apply list_elem_of_here | apply list_elem_of_further ]).
  reflexivity.
Qed.

(** C1. Each of the five recognized identifiers makes the dispatcher construct
    one instance of the matching class ([basicauth]: Basic, [jwt]: JWT,
    [openid]: OpenID, [saml]: SAML, [proxy]: Proxy); any string that is
    neither one of them nor the empty string makes it throw the configuration
    error, and then nothing is constructed. *)
Theorem getAuthenticationHandler_dispatch (built : Constructed value) :
  (forall authType c,
     (authType, c) ∈ [("basicauth", BasicAuthentication);
                      ("jwt", JwtAuthentication);
                      ("openid", OpenIdAuthentication);
                      ("saml", SamlAuthentication);
                      ("proxy", ProxyAuthentication)] ->
     exists inst,
       dispatch authType built = (Js.Returned inst, built ++ [inst])%list
       /\ ctor inst = c)
  /\ (forall authType,
        authType ∉ [EmptyString; "basicauth"; "jwt"; "openid"; "saml"; "proxy"] ->
        dispatch authType built
        = (Js.Thrown ("Unsupported authentication type: " ++ authType), built)).
Proof.
  split.
  - intros authType c Hin. exists (built_from c). split; [| reflexivity].
    apply dispatch_selected.
    repeat (apply elem_of_cons in Hin as [[= -> ->] | Hin]; [reflexivity |]).
    by apply elem_of_nil in Hin.
  - intros authType. apply dispatch_default.
Qed.

(** C3. The empty string is dispatched exactly like [basicauth]: both
    construct the Basic strategy and neither throws. *)
Theorem getAuthenticationHandler_empty_is_basic (built : Constructed value) :
  dispatch EmptyString built = dispatch "basicauth" built
  /\ exists inst,
       dispatch EmptyString built = (Js.Returned inst, built ++ [inst])%list
       /\ dispatch "basicauth" built = (Js.Returned inst, built ++ [inst])%list
       /\ ctor inst = BasicAuthentication.
Proof.
  assert (He := dispatch_selected EmptyString BasicAuthentication built eq_refl).
  assert (Hb := dispatch_selected "basicauth" BasicAuthentication built eq_refl).
  split; [by rewrite He, Hb |].
  exists (built_from BasicAuthentication). by rewrite He, Hb.
Qed.

(** C5. The dispatcher is deterministic: two invocations with the same
    identifier and the same dependencies, whatever was constructed in
    between, either both return an instance of the same class built from the
    same arguments, or both throw the same configuration error. *)
Theorem getAuthenticationHandler_deterministic
    (authType : string) (built1 built2 : Constructed value) :
  (exists inst,
     dispatch authType built1 = (Js.Returned inst, built1 ++ [inst])%list
     /\ dispatch authType built2 = (Js.Returned inst, built2 ++ [inst])%list)
  \/ (exists msg,
        dispatch authType built1 = (Js.Thrown msg, built1)
        /\ dispatch authType built2 = (Js.Thrown msg, built2)).
Proof.
  destruct (decide (authType ∈ [EmptyString; "basicauth"; "jwt"; "openid"; "saml"; "proxy"]))
    as [Hin | Hnot].
  - left.
    assert (exists c, forall built,
               dispatch authType built
               = (Js.Returned (built_from c), built ++ [built_from c])%list)
      as [c Hc].
    { repeat (apply elem_of_cons in Hin as [-> | Hin];
              [eexists; intros; by apply dispatch_selected |]).
      by apply elem_of_nil in Hin. }
    exists (built_from c). by rewrite !Hc.
  - right. eexists. split; by apply dispatch_default.
Qed.

End Dispatch.

(** C1, at the specification's example: [ldap] is not a recognized
    identifier. *)
Lemma getAuthenticationHandler_dispatch_ldap :
  ("ldap" ∉ [EmptyString; "basicauth"; "jwt"; "openid"; "saml"; "proxy"])
  /\ getAuthenticationHandler "ldap" "router" "config" "core" "esClient"
       "sessionStorageFactory" "logger" []
     = (Js.Thrown "Unsupported authentication type: ldap", []).
Proof.
  assert (Hnot : "ldap" ∉ [EmptyString; "basicauth"; "jwt"; "openid"; "saml"; "proxy"]).
  { intros Hin.
    repeat (apply elem_of_cons in Hin as [Hin | Hin]; [discriminate Hin |]).
    by apply elem_of_nil in Hin. }
  split; [exact Hnot |].
  exact (proj2 (getAuthenticationHandler_dispatch
                  "router" "config" "core" "esClient" "sessionStorageFactory"
                  "logger" []) "ldap" Hnot).
Defined.

(** C2. With a core setup handle distinct from the cluster client, the
    instance the dispatcher returns holds the cluster client in the
    core-setup position of its constructor, not the core setup handle it was
    given. *)
Theorem getAuthenticationHandler_coreSetup_is_esClient :
  exists inst,
    getAuthenticationHandler "jwt" "router" "config" "core" "esClient"
      "sessionStorageFactory" "logger" []
    = (Js.Returned inst, [inst])
    /\ inst = mkAuth JwtAuthentication "config" "sessionStorageFactory" "router"
                     "esClient" "esClient" "logger"
    /\ arg_coreSetup inst = "esClient"
    /\ arg_coreSetup inst <> "core".
Proof.
  eexists. split; [reflexivity |]. split; [reflexivity |]. split; [reflexivity |].
  discriminate.
Qed.

End FactoryFacts.

(** ** The role list panel *)

Module RoleListFacts.
Import RoleList.

(** [difference] keeps, in order, the rows that are none of the objects of
    [values]. *)
Lemma difference_filter (array values : list RoleListing) :
  difference array values
  = filter (fun r => Forall (fun s => ref s <> ref r) values) array.
Proof.
  unfold difference.
  induction array as [| a array IH]; [reflexivity |].
  cbn [List.filter]. rewrite filter_cons, IH.
  assert (Hiff : existsb (SameValueZero a) values = false
                 <-> Forall (fun s => ref s <> ref a) values).
  { rewrite Forall_forall. split.
    - intros Hex s Hs Heq.
      assert (existsb (SameValueZero a) values = true) as Habs; [| congruence].
      apply existsb_exists. exists s. split; [by apply list_elem_of_In |].
      unfold SameValueZero. apply Nat.eqb_eq. congruence.
    - intros Hall. apply not_true_is_false. intros Hex.
      apply existsb_exists in Hex as (s & Hs & Heq).
      apply (Hall s); [by apply list_elem_of_In |].
      unfold SameValueZero in Heq. apply Nat.eqb_eq in Heq. congruence. }
  destruct (existsb (SameValueZero a) values) eqn:Hex; cbn [negb].
  - rewrite decide_False; [reflexivity |]. intros Hall. apply Hiff in Hall. discriminate.
  - rewrite decide_True; [reflexivity |]. by apply Hiff.
Qed.

(** The rows [difference] returns are rows of [array], in the same order. *)
Lemma difference_sublist (array values : list RoleListing) :
  difference array values `sublist_of` array.
Proof. rewrite difference_filter. apply sublist_filter. Qed.

(** Reserved rows in terms of [existsb]. *)
Lemma some_reserved (selection : list RoleListing) :
  existsb reserved selection = true
  <-> exists r, r ∈ selection /\ reserved r = true.
Proof.
  rewrite existsb_exists. split; intros (r & Hr & Hres); exists r; split;
    solve [ by apply list_elem_of_In | done ].
Qed.

Section Panel.
Context {RawRoleData RawRoleMappingData : Type}.
Variable dataSource_id : string.
Variable fetchRole : string -> Js.completion JsError RawRoleData.
Variable fetchRoleMapping : string -> Js.completion JsError RawRoleMappingData.
Variable transformRoleData :
  RawRoleData -> RawRoleMappingData -> Js.completion JsError (list RoleListing).
Variable requestDeleteRoles : list string -> string -> Js.completion JsError unit.

Local Abbreviation try_block :=
  (fetchData_try dataSource_id fetchRole fetchRoleMapping transformRoleData).
Local Abbreviation fetch :=
  (fetchData dataSource_id fetchRole fetchRoleMapping transformRoleData).
Local Abbreviation delete_roles := (handleDelete dataSource_id requestDeleteRoles).

(** A [try] block that throws has only switched the loading indicator on. *)
Lemma fetchData_try_thrown (st st1 : State) (e : JsError) :
  try_block st = (Js.Thrown e, st1) -> st1 = setLoading true st.
Proof.
  unfold fetchData_try, Js.bind, Js.modify, await.
  destruct (fetchRole dataSource_id) as [raw |]; [| by intros [= _ <-]].
  destruct (fetchRoleMapping dataSource_id) as [mapping |]; [| by intros [= _ <-]].
  destruct (transformRoleData raw mapping); [discriminate | by intros [= _ <-]].
Qed.

(** A [try] block that completes has cleared both flags. *)
Lemma fetchData_try_returned (st st1 : State) (u : unit) :
  try_block st = (Js.Returned u, st1) ->
  errorFlag st1 = false /\ accessErrorFlag st1 = false.
Proof.
  unfold fetchData_try, Js.bind, Js.modify, await.
  destruct (fetchRole dataSource_id) as [raw |]; [| discriminate].
  destruct (fetchRoleMapping dataSource_id) as [mapping |]; [| discriminate].
  destruct (transformRoleData raw mapping); [| discriminate].
  by intros [= _ <-].
Qed.

(** After a failed fetch the access-error flag is its earlier value or-ed
    with the test of the [catch] block. *)
Lemma fetchData_failed_flags (st st1 : State) (e : JsError) :
  try_block st = (Js.Thrown e, st1) ->
  errorFlag (snd (fetch st)) = true
  /\ accessErrorFlag (snd (fetch st))
     = accessErrorFlag st
       || match response e with
          | Some r => includes [400; 403]%Z (status r)
          | None => false
          end.
Proof.
  intros Htry. assert (Hst1 := fetchData_try_thrown _ _ _ Htry). subst st1.
  unfold fetchData, Js.try_catch_finally. rewrite Htry.
  unfold fetchData_catch, console_log, Js.bind, Js.ret, Js.modify.
  destruct (response e) as [r |]; [destruct (includes _ (status r)) |];
    cbn; split; try reflexivity; by destruct (accessErrorFlag st).
Qed.

(** A [try] block whose first failing step throws [e] throws [e], having
    only switched the loading indicator on. *)
Lemma fetchData_try_first_failure (st : State) (e : JsError) :
  (fetchRole dataSource_id = Js.Thrown e
   \/ exists raw,
        fetchRole dataSource_id = Js.Returned raw
        /\ (fetchRoleMapping dataSource_id = Js.Thrown e
            \/ exists mapping,
                 fetchRoleMapping dataSource_id = Js.Returned mapping
                 /\ transformRoleData raw mapping = Js.Thrown e)) ->
  try_block st = (Js.Thrown e, setLoading true st).
Proof.
  unfold fetchData_try, Js.bind, Js.modify, await.
  intros [Hrole | (raw & Hrole & [Hmapping | (mapping & Hmapping & Htransform)])];
    rewrite Hrole; [reflexivity | rewrite Hmapping ..]; [reflexivity |].
  by rewrite Htransform.
Qed.

(** A [try] block whose two requests and transformation succeed completes
    with the transformed data installed and both flags cleared. *)
Lemma fetchData_try_all_succeed (st : State)
    (raw : RawRoleData) (mapping : RawRoleMappingData) (data : list RoleListing) :
  fetchRole dataSource_id = Js.Returned raw ->
  fetchRoleMapping dataSource_id = Js.Returned mapping ->
  transformRoleData raw mapping = Js.Returned data ->
  try_block st
  = (Js.Returned tt, mkState data false (selection st) true false (actionsMenuOpen st)).
Proof.
  unfold fetchData_try, Js.bind, Js.modify, await.
  by intros -> -> ->.
Qed.

(** C10. If the fetch fails (the roles request, the mapping request or the
    transformation throws [e], the earlier steps having succeeded), the
    general error flag is set whatever the failure is; the access-error flag
    is set when [e] carries an HTTP response whose status is 400 or 403, and,
    on the initial fetch (the flag being clear before), only then. If the two
    requests and the transformation succeed, both flags are cleared, whatever
    they were before. *)
Theorem fetchData_error_flags (st : State) :
  (forall e,
     (fetchRole dataSource_id = Js.Thrown e
      \/ exists raw,
           fetchRole dataSource_id = Js.Returned raw
           /\ (fetchRoleMapping dataSource_id = Js.Thrown e
               \/ exists mapping,
                    fetchRoleMapping dataSource_id = Js.Returned mapping
                    /\ transformRoleData raw mapping = Js.Thrown e)) ->
     errorFlag (snd (fetch st)) = true
     /\ ((exists r, response e = Some r /\ (status r = 400 \/ status r = 403)%Z) ->
         accessErrorFlag (snd (fetch st)) = true)
     /\ (accessErrorFlag st = false ->
         accessErrorFlag (snd (fetch st)) = true ->
         exists r, response e = Some r /\ (status r = 400 \/ status r = 403)%Z))
  /\ (forall raw mapping data,
        fetchRole dataSource_id = Js.Returned raw ->
        fetchRoleMapping dataSource_id = Js.Returned mapping ->
        transformRoleData raw mapping = Js.Returned data ->
        errorFlag (snd (fetch st)) = false
        /\ accessErrorFlag (snd (fetch st)) = false).
Proof.
  split.
  - intros e Hfirst. apply (fetchData_try_first_failure st) in Hfirst.
    destruct (fetchData_failed_flags _ _ _ Hfirst) as [Herr Hacc].
    split; [exact Herr |]. rewrite Hacc.
    assert (Htest : match response e with
                    | Some r => includes [400; 403]%Z (status r)
                    | None => false
                    end = true
                    <-> exists r, response e = Some r
                                  /\ (status r = 400 \/ status r = 403)%Z).
    { destruct (response e) as [r |].
      - unfold includes. cbn [existsb]. rewrite orb_false_r, orb_true_iff, !Z.eqb_eq.
        split; [intros H; by exists r | intros (r' & [= <-] & H); exact H].
      - split; [discriminate | intros (r & Hr & _); discriminate]. }
    split.
    + intros Hstatus. apply Htest in Hstatus. rewrite Hstatus. apply orb_true_r.
    + intros -> Hset. by apply Htest.
  - intros raw mapping data Hraw Hmapping Hdata.
    pose proof (fetchData_try_all_succeed st raw mapping data Hraw Hmapping Hdata) as Htry.
    unfold fetchData, Js.try_catch_finally. rewrite Htry. by split.
Qed.

(** C8. [handleDelete] never throws. If the delete request succeeds, the role
    data becomes the previous role data without the selected rows, order
    kept, and the selection becomes empty; if the request fails, role data
    and selection stay as they were. This holds for every selection, the
    non-empty ones included. *)
Theorem handleDelete_outcome (st : State) :
  let request := requestDeleteRoles (List.map roleName (selection st)) dataSource_id in
  let st' := snd (delete_roles st) in
  fst (delete_roles st) = Js.Returned tt
  /\ (request = Js.Returned tt ->
      roleData st'
      = filter (fun r => Forall (fun s => ref s <> ref r) (selection st)) (roleData st)
      /\ selection st' = [])
  /\ (forall e, request = Js.Thrown e ->
                roleData st' = roleData st /\ selection st' = selection st).
Proof.
  cbv zeta.
  unfold handleDelete, Js.bind, Js.get, Js.try_catch_finally, Js.modify, await,
    console_log, Js.ret.
  destruct (requestDeleteRoles _ dataSource_id) as [[] | e0]; cbn.
  - split; [reflexivity |]. split; [| discriminate].
    intros _. by rewrite difference_filter.
  - split; [reflexivity |]. split; [discriminate |]. by intros e _.
Qed.

End Panel.

(** C9. In the actions menu, Delete is disabled exactly when the selection is
    empty or contains a reserved role, and Edit is enabled exactly when the
    selection is one role that is not reserved; so whenever Delete or Edit is
    enabled, no selected role is reserved. *)
Theorem actionsMenuItems_reserved_guard (selection : list RoleListing) :
  exists edit duplicate delete,
    actionsMenuItems selection
    = [mkItem "edit" (Some edit); mkItem "duplicate" (Some duplicate);
       mkItem "delete" (Some delete)]
    /\ (delete = true
        <-> selection = [] \/ exists r, r ∈ selection /\ reserved r = true)
    /\ (edit = false <-> exists r, selection = [r] /\ reserved r = false)
    /\ (delete = false -> forall r, r ∈ selection -> reserved r = false)
    /\ (edit = false -> forall r, r ∈ selection -> reserved r = false).
Proof.
  assert (Hdel : Nat.eqb (length selection) 0 || existsb reserved selection = true
                 <-> selection = [] \/ exists r, r ∈ selection /\ reserved r = true).
  { rewrite orb_true_iff, Nat.eqb_eq, length_zero_iff_nil, some_reserved. tauto. }
  assert (Hedit : exists edit,
             edit_disabled selection = Some edit
             /\ (edit = false <-> exists r, selection = [r] /\ reserved r = false)).
  { unfold edit_disabled. destruct selection as [| r [| r' rest]]; cbn.
    - exists true. split; [reflexivity |].
      split; [discriminate | intros (r & [=] & _)].
    - exists (reserved r). split; [reflexivity |].
      split; [intros H; by exists r | intros (r0 & [= <-] & H); exact H].
    - exists true. split; [reflexivity |].
      split; [discriminate | intros (r0 & [=] & _)]. }
  destruct Hedit as (edit & Hed & Hedit).
  exists edit, (negb (Nat.eqb (length selection) 1)),
    (Nat.eqb (length selection) 0 || existsb reserved selection).
  unfold actionsMenuItems, duplicate_disabled, delete_disabled. rewrite Hed.
  split; [reflexivity |]. split; [exact Hdel |]. split; [exact Hedit |]. split.
  - intros Hoff r Hr. apply not_true_is_false. intros Hres.
    assert (Hon : Nat.eqb (length selection) 0 || existsb reserved selection = true);
      [| congruence].
    apply Hdel. right. by exists r.
  - intros Hoff r Hr. apply Hedit in Hoff as (r0 & -> & Hres).
    apply list_elem_of_singleton in Hr. by subst.
Qed.

(** C10, at a first fetch rejected with status 403, and at a successful
    fetch that starts with both flags set. *)
Lemma fetchData_error_flags_403 :
  let e := mkError "Forbidden" (Some (mkResponse 403)) in
  let rejected := fun _ : string => @Js.Thrown JsError unit e in
  let resolved := fun _ : string => @Js.Returned JsError unit tt in
  let transformRoleData := fun _ _ : unit => @Js.Returned JsError (list RoleListing) [] in
  let flagged := mkState [] true [] false true false in
  rejected "ds" = Js.Thrown e
  /\ errorFlag (snd (fetchData "ds" rejected resolved transformRoleData initialState))
     = true
  /\ accessErrorFlag (snd (fetchData "ds" rejected resolved transformRoleData initialState))
     = true
  /\ resolved "ds" = Js.Returned tt
  /\ transformRoleData tt tt = Js.Returned []
  /\ errorFlag (snd (fetchData "ds" resolved resolved transformRoleData flagged)) = false
  /\ accessErrorFlag (snd (fetchData "ds" resolved resolved transformRoleData flagged))
     = false.
Proof.
  intros e rejected resolved transformRoleData flagged.
  destruct (proj1 (fetchData_error_flags "ds" rejected resolved transformRoleData
                     initialState) e (or_introl eq_refl))
    as (Herr & Hset & _).
  destruct (proj2 (fetchData_error_flags "ds" resolved resolved transformRoleData flagged)
              tt tt [] eq_refl eq_refl eq_refl)
    as (Herr' & Hacc').
  split; [reflexivity |]. split; [exact Herr |].
  split; [apply Hset; exists (mkResponse 403); split; [reflexivity | by right] |].
  split; [reflexivity |]. split; [reflexivity |]. split; [exact Herr' | exact Hacc'].
Defined.

(** C8, at a table of three rows with the second one selected and a delete
    request that succeeds. *)
Lemma handleDelete_outcome_example :
  let r1 := mkRole 1 "all_access" true [] [] [] [] [] in
  let r2 := mkRole 2 "analyst" false [] [] [] [] [] in
  let r3 := mkRole 3 "readall" false [] [] [] [] [] in
  let st := mkState [r1; r2; r3] false [r2] false false true in
  let ok := fun (_ : list string) (_ : string) => @Js.Returned JsError unit tt in
  ok (List.map roleName (selection st)) "ds" = Js.Returned tt
  /\ roleData (snd (handleDelete "ds" ok st)) = [r1; r3]
  /\ selection (snd (handleDelete "ds" ok st)) = [].
Proof.
  cbv zeta. split; [reflexivity |].
  exact (proj1 (proj2 (handleDelete_outcome "ds" (fun _ _ => Js.Returned tt)
                         (mkState [mkRole 1 "all_access" true [] [] [] [] [];
                                   mkRole 2 "analyst" false [] [] [] [] [];
                                   mkRole 3 "readall" false [] [] [] [] []]
                                  false
                                  [mkRole 2 "analyst" false [] [] [] [] []]
                                  false false true)))
               eq_refl).
Defined.

End RoleListFacts.

(** ** The session lifecycle *)

Module SessionFacts.
Import Session.

Section Codec.
Context {wire mac : Type} `{EqDecision mac}.
Variable serialize : SecuritySessionCookie -> wire.
Variable deserialize : wire -> option SecuritySessionCookie.
Variable sign : string -> wire -> mac.

Local Abbreviation enc := (encode serialize sign).
Local Abbreviation dec := (decode deserialize sign).
Local Abbreviation read := (get deserialize sign).
Local Abbreviation run := (intercept serialize deserialize sign).

(** What [decode] accepts carries a good integrity tag, deserializes to the
    result and is not expired. *)
Lemma decode_Some (key : string) (now : Z) (c : CookieValue wire mac)
    (s : SecuritySessionCookie) :
  dec key now c = Some s
  <-> signature c = sign key (body c)
      /\ deserialize (body c) = Some s
      /\ (now <= expiryTime s)%Z.
Proof.
  unfold decode, expired. destruct (decide (signature c = sign key (body c))) as [Hsig | Hsig].
  - destruct (deserialize (body c)) as [s0 |]; cbn.
    + destruct (Z.ltb_spec (expiryTime s0) now) as [Hlt | Hge].
      * split; [discriminate | intros (_ & [= ->] & Hle); lia].
      * split; [intros [= ->]; by repeat split | by intros (_ & [= ->] & _)].
    + split; [discriminate | by intros (_ & [=] & _)].
  - split; [discriminate | by intros (Hs & _)].
Qed.

(** What [get] returns is the decoded cookie of the request's client, and its
    tag is the active type. *)
Lemma get_Some (cfg : Config) (now : Z) (store : Storage wire mac) (req : Request)
    (s : SecuritySessionCookie) :
  read cfg now store req = Some s
  <-> exists c, store !! client req = Some c
                /\ dec (signingKey cfg) now c = Some s
                /\ authType s = activeType cfg.
Proof.
  unfold get. split.
  - destruct (store !! client req) as [c |]; cbn; [| discriminate].
    destruct (decode deserialize sign (signingKey cfg) now c) as [s0 |] eqn:Hdec;
      cbn; [| discriminate].
    destruct (decide (authType s0 = activeType cfg)) as [Ht | Ht]; [| discriminate].
    intros [= ->]. exists c. auto.
  - intros (c & -> & Hdec & Ht). cbn. rewrite Hdec. cbn. by rewrite decide_True.
Qed.

(** A session read at one time is read again at any time up to its expiry. *)
Lemma get_later (cfg : Config) (now now' : Z) (store : Storage wire mac)
    (req : Request) (s : SecuritySessionCookie) :
  read cfg now store req = Some s ->
  (now' <= expiryTime s)%Z ->
  read cfg now' store req = Some s.
Proof.
  rewrite !get_Some. intros (c & Hc & Hdec & Ht) Hle. exists c.
  split; [exact Hc |]. split; [| exact Ht].
  apply decode_Some in Hdec as (Hsig & Hde & _). by apply decode_Some.
Qed.

(** Without a readable session the interceptor's result is the strategy's. *)
Lemma intercept_no_session (cfg : Config) (strategy : Strategy) (now : Z)
    (req : Request) (store : Storage wire mac) :
  read cfg now store req = None ->
  fst (run cfg strategy now req store) = authenticate strategy req.
Proof.
  unfold intercept. intros ->. by destruct (authenticate strategy req).
Qed.

(** With a readable session that the strategy holds valid, the interceptor
    answers from the session and leaves the storage alone. *)
Lemma intercept_session (cfg : Config) (strategy : Strategy) (now : Z)
    (req : Request) (store : Storage wire mac) (s : SecuritySessionCookie) :
  read cfg now store req = Some s ->
  isValidCookie strategy s = true ->
  run cfg strategy now req store = (Authenticated (username s) (roles s), store).
Proof. unfold intercept. by intros -> ->. Qed.

(** Decoding what [encode] produced with the same key passes the integrity
    check: what is left is reading back the serialized session and the
    expiry test. *)
Lemma decode_encode (key : string) (now : Z) (s : SecuritySessionCookie) :
  dec key now (enc key s)
  = s' ← deserialize (serialize s); if expired now s' then None else Some s'.
Proof. unfold decode, encode. cbn. by rewrite decide_True. Qed.

(** C4. A stored session whose tag is [X] is not read when the configured
    type is [Y <> X]: [get] returns nothing and the interceptor answers as
    the strategy does for a client without a cookie. Whatever [get] does
    return carries the configured type. *)
Theorem session_of_other_type_rejected
    (cfg : Config) (strategy : Strategy) (now : Z) (req : Request)
    (store : Storage wire mac) (X Y : AuthType)
    (c : CookieValue wire mac) (s : SecuritySessionCookie) :
  X <> Y ->
  authType s = X ->
  activeType cfg = Y ->
  store !! client req = Some c ->
  dec (signingKey cfg) now c = Some s ->
  read cfg now store req = None
  /\ fst (run cfg strategy now req store) = authenticate strategy req
  /\ fst (run cfg strategy now req store)
     = fst (run cfg strategy now req (clear store req))
  /\ (forall store' now' s',
        read cfg now' store' req = Some s' -> authType s' = Y).
Proof.
  intros Hne HX HY Hc Hdec.
  assert (Hnone : read cfg now store req = None).
  { destruct (read cfg now store req) as [s' |] eqn:Hread; [| reflexivity].
    apply get_Some in Hread as (c' & Hc' & Hdec' & Ht). congruence. }
  assert (Hcleared : read cfg now (clear store req) req = None).
  { unfold get, clear, Storage in *. by rewrite lookup_delete_eq. }
  split; [exact Hnone |]. split; [by apply intercept_no_session |].
  split; [by rewrite !intercept_no_session |].
  intros store' now' s' Hread.
  apply get_Some in Hread as (_ & _ & _ & Ht). congruence.
Qed.

(** C7. With a stored session that is read, held valid by the strategy and
    not expired at the second request, two runs of the interceptor both
    answer [Authenticated] with the session's identity and roles, and the
    storage after each run is the storage before it. *)
Theorem intercept_idempotent
    (cfg : Config) (strategy : Strategy) (now1 now2 : Z) (req : Request)
    (store : Storage wire mac) (s : SecuritySessionCookie) :
  read cfg now1 store req = Some s ->
  isValidCookie strategy s = true ->
  (now2 <= expiryTime s)%Z ->
  let first := run cfg strategy now1 req store in
  let second := run cfg strategy now2 req (snd first) in
  fst first = Authenticated (username s) (roles s)
  /\ fst second = fst first
  /\ snd first = store
  /\ snd second = store.
Proof.
  intros Hread Hvalid Hle. cbv zeta.
  rewrite (intercept_session _ _ _ _ _ _ Hread Hvalid). cbn [fst snd].
  by rewrite (intercept_session _ _ _ _ _ _ (get_later _ _ _ _ _ _ Hread Hle) Hvalid).
Qed.

End Codec.

(** C4, at a session created under [basicauth] and read under [jwt]. *)
Lemma session_of_other_type_rejected_basic_jwt :
  let serialize := fun s : SecuritySessionCookie => s in
  let deserialize := fun w : SecuritySessionCookie => Some w in
  let sign := fun (key : string) (w : SecuritySessionCookie) => (key, username w) in
  let s := mkSession "alice" {["admin"]} basicauth 0 100 "opaque" in
  let cfg := mkConfig jwt "k" 3600 in
  let req := mkRequest "browser" "none" in
  let store : Storage SecuritySessionCookie (string * string) :=
    {[ "browser" := encode serialize sign "k" s ]} in
  basicauth <> jwt
  /\ store !! client req = Some (encode serialize sign "k" s)
  /\ decode deserialize sign (signingKey cfg) 50 (encode serialize sign "k" s) = Some s
  /\ get deserialize sign cfg 50 store req = None.
Proof.
  intros serialize deserialize sign s cfg req store.
  assert (Hne : basicauth <> jwt) by discriminate.
  assert (Hc : store !! client req = Some (encode serialize sign "k" s)) by reflexivity.
  assert (Hdec : decode deserialize sign (signingKey cfg) 50 (encode serialize sign "k" s)
                 = Some s) by reflexivity.
  split; [exact Hne |]. split; [exact Hc |]. split; [exact Hdec |].
  exact (proj1 (session_of_other_type_rejected serialize deserialize sign cfg
                  (mkStrategy (fun _ => Challenge "401") (fun _ => true) (fun _ => "p"))
                  50 req store basicauth jwt (encode serialize sign "k" s) s
                  Hne eq_refl eq_refl Hc Hdec)).
Defined.

(** C7, at two requests of alice's browser under [basicauth]. *)
Lemma intercept_idempotent_alice :
  let serialize := fun s : SecuritySessionCookie => s in
  let deserialize := fun w : SecuritySessionCookie => Some w in
  let sign := fun (key : string) (w : SecuritySessionCookie) => (key, username w) in
  let s := mkSession "alice" {["admin"]} basicauth 0 100 "opaque" in
  let cfg := mkConfig basicauth "k" 3600 in
  let req := mkRequest "browser" "none" in
  let strategy := mkStrategy (fun _ => Challenge "401") (fun _ => true) (fun _ => "p") in
  let store : Storage SecuritySessionCookie (string * string) :=
    {[ "browser" := encode serialize sign "k" s ]} in
  get deserialize sign cfg 50 store req = Some s
  /\ isValidCookie strategy s = true
  /\ (60 <= expiryTime s)%Z
  /\ fst (intercept serialize deserialize sign cfg strategy 60 req
            (snd (intercept serialize deserialize sign cfg strategy 50 req store)))
     = Authenticated "alice" {["admin"]}.
Proof.
  intros serialize deserialize sign s cfg req strategy store.
  assert (Hread : get deserialize sign cfg 50 store req = Some s) by reflexivity.
  assert (Hle : (60 <= expiryTime s)%Z) by (cbn; lia).
  split; [exact Hread |]. split; [reflexivity |]. split; [exact Hle |].
  destruct (intercept_idempotent serialize deserialize sign cfg strategy 50 60 req store s
              Hread eq_refl Hle)
    as (Hfirst & Hsecond & _ & _).
  rewrite Hsecond. exact Hfirst.
Defined.

End SessionFacts.

(** ** The serialized form of a session *)

Module SessionWireFacts.
Import Session SessionWire.

(** A field that was written is read back, and reading stops right after
    it. *)
Lemma read_write_field (s rest : string) :
  read_field (write_field s rest) = Some (s, rest).
Proof.
  induction s as [| c s IH]; [reflexivity |].
  cbn [write_field].
  destruct (Ascii.eqb c separator) eqn:Hsep; cbn [orb].
  - cbn [read_field]. change (Ascii.eqb escape_char separator) with false.
    change (Ascii.eqb escape_char escape_char) with true. cbn iota. by rewrite IH.
  - destruct (Ascii.eqb c escape_char) eqn:Hesc.
    + cbn [read_field]. change (Ascii.eqb escape_char separator) with false.
      change (Ascii.eqb escape_char escape_char) with true. cbn iota. by rewrite IH.
    + cbn [read_field]. by rewrite Hsep, Hesc, IH.
Qed.

(** So is a sequence of fields, when as many are read as were written. *)
Lemma read_write_fields (l : list string) (rest : string) :
  read_fields (length l) (write_fields l rest) = Some (l, rest).
Proof.
  induction l as [| x l IH]; [reflexivity |].
  cbn [length write_fields read_fields]. by rewrite read_write_field, IH.
Qed.

Lemma read_write_number (z : Z) : read_number (write_number z) = Some z.
Proof.
  unfold read_number, write_number. rewrite NilEmpty.isi. cbn.
  by rewrite DecimalZ.of_to.
Qed.

Lemma read_write_authType (t : AuthType) : read_authType (write_authType t) = Some t.
Proof. by destruct t. Qed.

(** Every session is read back from its serialized form. *)
Lemma deserialize_serialize (s : SecuritySessionCookie) :
  deserialize (serialize s) = Some s.
Proof.
  unfold deserialize, serialize.
  repeat (rewrite read_write_field; cbn [mbind option_bind]).
  rewrite read_write_authType. cbn [mbind option_bind].
  repeat (rewrite read_write_field; cbn [mbind option_bind]).
  rewrite read_write_number. cbn [mbind option_bind].
  repeat (rewrite read_write_field; cbn [mbind option_bind]).
  rewrite read_write_number. cbn [mbind option_bind].
  repeat (rewrite read_write_field; cbn [mbind option_bind]).
  rewrite read_write_number. cbn [mbind option_bind].
  destruct (Z.ltb_spec (Z.of_nat (length (elements (roles s)))) 0) as [Hneg | _];
    [lia |].
  rewrite Nat2Z.id, read_write_fields. cbn [mbind option_bind].
  rewrite list_to_set_elements_L. by destruct s.
Qed.

(** A field of the serialized form is not read when its separator is
    missing. *)
Lemma deserialize_truncated : deserialize "alice;jwt;0;100;opaque;0" = None.
Proof. reflexivity. Qed.

Section Codec.
Context {mac : Type} `{EqDecision mac}.
Variable sign : string -> string -> mac.

(** C6. For every session, encoding it (serializing, then adding the
    integrity tag) and decoding the resulting cookie with the same key, no
    later than the session's expiry, gives back a session with the identity
    and the role set of the original; it is the original session. *)
Theorem encode_decode_roundtrip (key : string) (now : Z) (s : SecuritySessionCookie) :
  (now <= expiryTime s)%Z ->
  exists s',
    decode deserialize sign key now (encode serialize sign key s) = Some s'
    /\ username s' = username s
    /\ roles s' = roles s
    /\ s' = s.
Proof.
  intros Hle. exists s. split; [| done].
  rewrite SessionFacts.decode_encode, deserialize_serialize. cbn [mbind option_bind].
  unfold expired. destruct (Z.ltb_spec (expiryTime s) now); [lia | reflexivity].
Qed.

(** The provisos matter: past its expiry the same cookie decodes to no
    session, and so does a cookie whose integrity tag is not the one of its
    body. *)
Lemma decode_expired (key : string) (now : Z) (s : SecuritySessionCookie) :
  (expiryTime s < now)%Z ->
  decode deserialize sign key now (encode serialize sign key s) = None.
Proof.
  intros Hlt. rewrite SessionFacts.decode_encode, deserialize_serialize.
  cbn [mbind option_bind]. unfold expired.
  destruct (Z.ltb_spec (expiryTime s) now); [reflexivity | lia].
Qed.

Lemma decode_tampered (key : string) (now : Z) (c : CookieValue string mac) :
  signature c <> sign key (body c) ->
  decode deserialize sign key now c = None.
Proof. intros Hsig. unfold decode. by rewrite decide_False. Qed.

End Codec.

(** C6, at a session for alice with two roles, encoded and decoded before its
    expiry. *)
Lemma encode_decode_roundtrip_alice :
  let sign := fun (key : string) (w : string) => (key, w) in
  let s := mkSession "alice" {["admin"; "kibana_user"]} basicauth 0 100 "opaque" in
  (50 <= expiryTime s)%Z
  /\ exists s',
       decode deserialize sign "k" 50 (encode serialize sign "k" s) = Some s'
       /\ username s' = username s
       /\ roles s' = roles s
       /\ s' = s.
Proof.
  intros sign s.
  assert (Hle : (50 <= expiryTime s)%Z) by (cbn; lia).
  split; [exact Hle |].
  exact (encode_decode_roundtrip sign "k" 50 s Hle).
Defined.

End SessionWireFacts.

(** ** The dispatcher: wiring, errors, repeated calls *)

Module FactoryMore.
Import AuthHandlerFactory.

Section Dispatch.
Context {value : Type}.
Variables router config core esClient securitySessionStorageFactory logger : value.

Local Abbreviation dispatch authType :=
  (getAuthenticationHandler authType router config core esClient
     securitySessionStorageFactory logger).

(** Every run of the dispatcher either returns a new instance built from the
    arguments of the call and records it, whatever was constructed before, or
    throws the unsupported-type error for an identifier outside the six
    accepted strings and records nothing. *)
Lemma dispatch_cases (authType : string) :
  (exists c,
     authType ∈ [EmptyString; "basicauth"; "jwt"; "openid"; "saml"; "proxy"]
     /\ forall built : Constructed value,
          dispatch authType built
          = (Js.Returned
               (mkAuth c config securitySessionStorageFactory router esClient esClient
                  logger),
             built ++ [mkAuth c config securitySessionStorageFactory router esClient
                         esClient logger])%list)
  \/ ((authType ∉ [EmptyString; "basicauth"; "jwt"; "openid"; "saml"; "proxy"])
      /\ forall built : Constructed value,
           dispatch authType built
           = (Js.Thrown ("Unsupported authentication type: " ++ authType), built)).
Proof.
  destruct (decide (authType ∈ [EmptyString; "basicauth"; "jwt"; "openid"; "saml"; "proxy"]))
    as [Hin | Hnot].
  - left. pose proof Hin as Hin'.
    repeat (apply elem_of_cons in Hin' as [-> | Hin'];
            [eexists; split; [exact Hin | intros; by apply FactoryFacts.dispatch_selected] |]).
    by apply elem_of_nil in Hin'.
  - right. split; [exact Hnot | intros; by apply FactoryFacts.dispatch_default].
Qed.

(** Two unsupported-type messages are equal only for equal identifiers. *)
Lemma unsupported_message_inj (authType1 authType2 : string) :
  "Unsupported authentication type: " ++ authType1
  = "Unsupported authentication type: " ++ authType2 ->
  authType1 = authType2.
Proof. cbn. intros Hmsg. by simplify_eq. Qed.

(** X1. Whenever the dispatcher returns an instance, that instance received
    the configuration, the session-storage factory, the router, the cluster
    client and the logger of the call, each in its own constructor position,
    and it is the one entry added to the constructed instances. *)
Theorem getAuthenticationHandler_wiring
    (authType : string) (built built' : Constructed value)
    (inst : IAuthenticationType value) :
  dispatch authType built = (Js.Returned inst, built') ->
  arg_config inst = config
  /\ arg_sessionStorageFactory inst = securitySessionStorageFactory
  /\ arg_router inst = router
  /\ arg_esClient inst = esClient
  /\ arg_logger inst = logger
  /\ built' = (built ++ [inst])%list.
Proof.
  intros Hrun.
  destruct (dispatch_cases authType) as [(c & _ & Hok) | (_ & Hko)].
  - rewrite Hok in Hrun. injection Hrun as <- <-. by repeat split.
  - rewrite Hko in Hrun. discriminate.
Qed.

(** X2. Whenever the dispatcher throws, the identifier is none of the six
    accepted strings, nothing was constructed, and the message is the fixed
    prefix followed by the identifier as given; so a message identifies the
    identifier that caused it. *)
Theorem getAuthenticationHandler_error
    (authType : string) (built built' : Constructed value) (msg : string) :
  dispatch authType built = (Js.Thrown msg, built') ->
  (authType ∉ [EmptyString; "basicauth"; "jwt"; "openid"; "saml"; "proxy"])
  /\ built' = built
  /\ msg = "Unsupported authentication type: " ++ authType
  /\ (forall authType2 built2 built2',
        dispatch authType2 built2 = (Js.Thrown msg, built2') -> authType2 = authType).
Proof.
  intros Hrun.
  destruct (dispatch_cases authType) as [(c & _ & Hok) | (Hnot & Hko)];
    [rewrite Hok in Hrun; discriminate |].
  rewrite Hko in Hrun. injection Hrun as <- <-. repeat split; [exact Hnot |].
  intros authType2 built2 built2' Hrun2.
  destruct (dispatch_cases authType2) as [(c & _ & Hok) | (_ & Hko2)];
    [rewrite Hok in Hrun2; discriminate |].
  rewrite Hko2 in Hrun2.
  assert (Hmsg : "Unsupported authentication type: " ++ authType2
                 = "Unsupported authentication type: " ++ authType) by congruence.
  by apply unsupported_message_inj in Hmsg.
Qed.

(** X3. The dispatcher keeps no instance from one call to the next: two calls
    in sequence that each succeed on their own construct two instances, in
    call order. *)
Theorem getAuthenticationHandler_twice
    (authType1 authType2 : string) (built built1 built2 : Constructed value)
    (inst1 inst2 : IAuthenticationType value) :
  dispatch authType1 built = (Js.Returned inst1, built1) ->
  dispatch authType2 built = (Js.Returned inst2, built2) ->
  (let! first := dispatch authType1 in
   let! second := dispatch authType2 in
   Js.ret (first, second)) built
  = (Js.Returned (inst1, inst2), built ++ [inst1; inst2])%list.
Proof.
  intros Hrun1 Hrun2.
  destruct (dispatch_cases authType1) as [(c1 & _ & Hok1) | (_ & Hko)];
    [| rewrite Hko in Hrun1; discriminate].
  destruct (dispatch_cases authType2) as [(c2 & _ & Hok2) | (_ & Hko)];
    [| rewrite Hko in Hrun2; discriminate].
  rewrite Hok1 in Hrun1. injection Hrun1 as <- <-.
  rewrite Hok2 in Hrun2. injection Hrun2 as <- <-.
  unfold Js.bind, Js.ret. rewrite Hok1, Hok2. by rewrite <- app_assoc.
Qed.

End Dispatch.

(** X1, at a SAML dispatch. *)
Lemma getAuthenticationHandler_wiring_saml :
  let inst := mkAuth SamlAuthentication "config" "sessionStorageFactory" "router"
                "esClient" "esClient" "logger" in
  getAuthenticationHandler "saml" "router" "config" "core" "esClient"
    "sessionStorageFactory" "logger" [] = (Js.Returned inst, [inst])
  /\ arg_config inst = "config"
  /\ arg_sessionStorageFactory inst = "sessionStorageFactory"
  /\ arg_router inst = "router"
  /\ arg_esClient inst = "esClient"
  /\ arg_logger inst = "logger"
  /\ [inst] = ([] ++ [inst])%list.
Proof.
  intros inst. split; [reflexivity |].
  exact (getAuthenticationHandler_wiring "router" "config" "core" "esClient"
           "sessionStorageFactory" "logger" "saml" [] [inst] inst eq_refl).
Defined.

(** X2, at the identifier [ldap]. *)
Lemma getAuthenticationHandler_error_ldap :
  getAuthenticationHandler "ldap" "router" "config" "core" "esClient"
    "sessionStorageFactory" "logger" []
  = (Js.Thrown "Unsupported authentication type: ldap", [])
  /\ ("ldap" ∉ [EmptyString; "basicauth"; "jwt"; "openid"; "saml"; "proxy"]).
Proof.
  split; [reflexivity |].
  exact (proj1 (getAuthenticationHandler_error "router" "config" "core" "esClient"
                  "sessionStorageFactory" "logger" "ldap" [] []
                  "Unsupported authentication type: ldap" eq_refl)).
Defined.

(** X3, at a Basic dispatch followed by an OpenID dispatch. *)
Lemma getAuthenticationHandler_twice_basic_openid :
  let inst1 := mkAuth BasicAuthentication "config" "sessionStorageFactory" "router"
                 "esClient" "esClient" "logger" in
  let inst2 := mkAuth OpenIdAuthentication "config" "sessionStorageFactory" "router"
                 "esClient" "esClient" "logger" in
  let dispatch := fun authType =>
    getAuthenticationHandler authType "router" "config" "core" "esClient"
      "sessionStorageFactory" "logger" in
  dispatch "basicauth" [] = (Js.Returned inst1, [inst1])
  /\ dispatch "openid" [] = (Js.Returned inst2, [inst2])
  /\ (let! first := dispatch "basicauth" in
      let! second := dispatch "openid" in
      Js.ret (first, second)) []
     = (Js.Returned (inst1, inst2), [inst1; inst2]).
Proof.
  intros inst1 inst2 dispatch. split; [reflexivity |]. split; [reflexivity |].
  exact (getAuthenticationHandler_twice "router" "config" "core" "esClient"
           "sessionStorageFactory" "logger" "basicauth" "openid" [] [inst1] [inst2]
           inst1 inst2 eq_refl eq_refl).
Defined.

End FactoryMore.

(** ** The role list panel: delete *)

Module RoleListMore.
Import RoleList RoleListView.

(** Nothing is removed when nothing is selected. *)
Lemma difference_nil (array : list RoleListing) : difference array [] = array.
Proof.
  unfold difference. induction array as [| a array IH]; [reflexivity |].
  cbn in *. by f_equal.
Qed.

(** A row survives [difference] exactly when it is none of the objects of
    [values]. *)
Lemma elem_of_difference (array values : list RoleListing) (r : RoleListing) :
  r ∈ difference array values
  <-> r ∈ array /\ forall s, s ∈ values -> ref s <> ref r.
Proof.
  rewrite RoleListFacts.difference_filter, list_elem_of_filter, Forall_forall. tauto.
Qed.

(** With distinct objects on both sides and every object of [values] among
    those of [array], [difference] removes as many rows as [values] has. *)
Lemma length_difference (array values : list RoleListing) :
  NoDup (ref <$> array) ->
  NoDup (ref <$> values) ->
  (forall s, s ∈ values -> exists r, r ∈ array /\ ref r = ref s) ->
  length (difference array values) + length values = length array.
Proof.
  intros Harray Hvalues Hsub.
  rewrite RoleListFacts.difference_filter.
  set (P := fun r : RoleListing => Forall (fun s => ref s <> ref r) values).
  rewrite <- (Permutation_length (filter_app_complement P array)).
  rewrite length_app. f_equal.
  rewrite <- (length_fmap ref values), <- (length_fmap ref (filter _ array)).
  apply Permutation_length. symmetry. apply NoDup_Permutation.
  - apply (sublist_NoDup _ _ Harray), fmap_sublist, sublist_filter.
  - exact Hvalues.
  - intros x. rewrite !list_elem_of_fmap. split.
    + intros (r & -> & Hr). apply list_elem_of_filter in Hr as [HnP Hr].
      unfold P in HnP. apply not_Forall_Exists in HnP; [| intros s; apply _].
      apply Exists_exists in HnP as (s & Hs & Heq).
      exists s. split; [| exact Hs]. destruct (decide (ref s = ref r)); [done | contradiction].
    + intros (s & -> & Hs). destruct (Hsub s Hs) as (r & Hr & Heq).
      exists r. split; [done |]. apply list_elem_of_filter. split; [| exact Hr].
      unfold P. rewrite Forall_forall. intros Hall. by apply (Hall s Hs).
Qed.

Section Delete.
Variable dataSource_id : string.
Variable requestDeleteRoles : list string -> string -> Js.completion JsError unit.

Local Abbreviation delete_roles := (handleDelete dataSource_id requestDeleteRoles).

(** [handleDelete] in one step: it returns, closes the menu, and on a
    successful request replaces the role data and empties the selection. *)
Lemma handleDelete_run (st : State) :
  delete_roles st
  = (Js.Returned tt,
     closeActionsMenu
       match requestDeleteRoles (List.map roleName (selection st)) dataSource_id with
       | Js.Returned _ =>
           setSelection [] (setRoleData (difference (roleData st) (selection st)) st)
       | Js.Thrown _ => st
       end).
Proof.
  unfold handleDelete, Js.bind, Js.get, Js.try_catch_finally, Js.modify, await,
    console_log, Js.ret.
  by destruct (requestDeleteRoles _ dataSource_id) as [[] | e].
Qed.

(** X4. Whatever the request's outcome, [handleDelete] closes the actions
    menu, leaves the three flags as they were, adds no row (the role data
    after is a sublist of the role data before) and leaves the selection
    either as it was or empty. *)
Theorem handleDelete_frame (st : State) :
  let st' := snd (delete_roles st) in
  actionsMenuOpen st' = false
  /\ errorFlag st' = errorFlag st
  /\ loading st' = loading st
  /\ accessErrorFlag st' = accessErrorFlag st
  /\ roleData st' `sublist_of` roleData st
  /\ (selection st' = selection st \/ selection st' = []).
Proof.
  cbv zeta. rewrite handleDelete_run.
  destruct (requestDeleteRoles _ dataSource_id); cbn.
  - repeat split; [apply RoleListFacts.difference_sublist | by right].
  - repeat split; [reflexivity | by left].
Qed.

(** X6. When the selected rows are distinct objects of a table of distinct
    objects and the request succeeds, the count shown in the page header
    drops by the number of selected rows. *)
Theorem handleDelete_header_count (st : State) (isMultiTenancyEnabled : bool) :
  NoDup (ref <$> roleData st) ->
  NoDup (ref <$> selection st) ->
  (forall s, s ∈ selection st -> exists r, r ∈ roleData st /\ ref r = ref s) ->
  requestDeleteRoles (List.map roleName (selection st)) dataSource_id = Js.Returned tt ->
  header_count (renderRoleList (snd (delete_roles st)) isMultiTenancyEnabled)
  = header_count (renderRoleList st isMultiTenancyEnabled) - length (selection st).
Proof.
  intros Hdata Hsel Hsub Hok. rewrite handleDelete_run, Hok. cbn.
  pose proof (length_difference _ _ Hdata Hsel Hsub). lia.
Qed.

(** X7. When the Delete button is enabled and a row of the table and a
    selected row with the same identity are the same row, every reserved row
    of the table is still in the table after [handleDelete], whatever the
    request's outcome. *)
Theorem handleDelete_keeps_reserved (st : State) :
  delete_disabled (selection st) = Some false ->
  (forall a b, a ∈ roleData st -> b ∈ selection st -> ref a = ref b -> a = b) ->
  forall r, r ∈ roleData st -> reserved r = true ->
            r ∈ roleData (snd (delete_roles st)).
Proof.
  intros Henabled Hcoherent r Hr Hres. rewrite handleDelete_run.
  destruct (requestDeleteRoles _ dataSource_id); cbn; [| exact Hr].
  apply elem_of_difference. split; [exact Hr |].
  intros s Hs Heq.
  assert (r = s) as -> by (by apply Hcoherent).
  unfold delete_disabled in Henabled. injection Henabled as Henabled.
  apply orb_false_iff in Henabled as [_ Hnone].
  assert (existsb reserved (selection st) = true) as Habs; [| congruence].
  apply RoleListFacts.some_reserved. by exists s.
Qed.

End Delete.

(** X5. After a delete that succeeded, a second [handleDelete] changes
    neither the role data nor the (empty) selection, whatever its request
    answers. *)
Theorem handleDelete_again
    (dataSource_id : string)
    (request1 request2 : list string -> string -> Js.completion JsError unit)
    (st : State) :
  request1 (List.map roleName (selection st)) dataSource_id = Js.Returned tt ->
  let st1 := snd (handleDelete dataSource_id request1 st) in
  let st2 := snd (handleDelete dataSource_id request2 st1) in
  roleData st2 = roleData st1 /\ selection st2 = [] /\ selection st1 = [].
Proof.
  intros Hok. cbv zeta. rewrite (handleDelete_run _ request1 st), Hok.
  rewrite handleDelete_run. cbn.
  destruct (request2 [] dataSource_id); cbn; repeat split.
  exact (difference_nil _).
Qed.

(** X6, at a table of three rows with the second one selected. *)
Lemma handleDelete_header_count_example :
  let r1 := mkRole 1 "all_access" true [] [] [] [] [] in
  let r2 := mkRole 2 "analyst" false [] [] [] [] [] in
  let r3 := mkRole 3 "readall" false [] [] [] [] [] in
  let st := mkState [r1; r2; r3] false [r2] false false true in
  let ok := fun (_ : list string) (_ : string) => @Js.Returned JsError unit tt in
  NoDup (ref <$> roleData st)
  /\ NoDup (ref <$> selection st)
  /\ (forall s, s ∈ selection st -> exists r, r ∈ roleData st /\ ref r = ref s)
  /\ ok (List.map roleName (selection st)) "ds" = Js.Returned tt
  /\ header_count (renderRoleList (snd (handleDelete "ds" ok st)) true) = 2.
Proof.
  intros r1 r2 r3 st ok.
  assert (Hdata : NoDup (ref <$> roleData st)) by (refine (bool_decide_unpack _ _); vm_compute; exact I).
  assert (Hsel : NoDup (ref <$> selection st)) by (refine (bool_decide_unpack _ _); vm_compute; exact I).
  assert (Hsub : forall s, s ∈ selection st -> exists r, r ∈ roleData st /\ ref r = ref s).
  { intros s Hs. apply list_elem_of_singleton in Hs as ->. exists r2.
    split; [apply list_elem_of_further, list_elem_of_here | reflexivity]. }
  split; [exact Hdata |]. split; [exact Hsel |]. split; [exact Hsub |].
  split; [reflexivity |].
  exact (handleDelete_header_count "ds" ok st true Hdata Hsel Hsub eq_refl).
Defined.

(** X7, at a table whose first row is reserved, with the second one
    selected. *)
Lemma handleDelete_keeps_reserved_example :
  let r1 := mkRole 1 "all_access" true [] [] [] [] [] in
  let r2 := mkRole 2 "analyst" false [] [] [] [] [] in
  let r3 := mkRole 3 "readall" false [] [] [] [] [] in
  let st := mkState [r1; r2; r3] false [r2] false false true in
  let ok := fun (_ : list string) (_ : string) => @Js.Returned JsError unit tt in
  delete_disabled (selection st) = Some false
  /\ (forall a b, a ∈ roleData st -> b ∈ selection st -> ref a = ref b -> a = b)
  /\ r1 ∈ roleData st
  /\ reserved r1 = true
  /\ r1 ∈ roleData (snd (handleDelete "ds" ok st)).
Proof.
  intros r1 r2 r3 st ok.
  assert (Hcoherent : forall a b, a ∈ roleData st -> b ∈ selection st ->
                                  ref a = ref b -> a = b).
  { intros a b Ha Hb Heq. apply list_elem_of_singleton in Hb as ->.
    cbn in Ha.
    repeat (apply elem_of_cons in Ha as [-> | Ha]; [done || discriminate Heq |]).
    by apply elem_of_nil in Ha. }
  assert (Hr1 : r1 ∈ roleData st) by apply list_elem_of_here.
  split; [reflexivity |]. split; [exact Hcoherent |]. split; [exact Hr1 |].
  split; [reflexivity |].
  exact (handleDelete_keeps_reserved "ds" ok st eq_refl Hcoherent r1 Hr1 eq_refl).
Defined.

(** X5, at a delete that succeeds followed by one whose request fails. *)
Lemma handleDelete_again_example :
  let r1 := mkRole 1 "all_access" true [] [] [] [] [] in
  let r2 := mkRole 2 "analyst" false [] [] [] [] [] in
  let st := mkState [r1; r2] false [r2] false false true in
  let ok := fun (_ : list string) (_ : string) => @Js.Returned JsError unit tt in
  let ko := fun (_ : list string) (_ : string) =>
    @Js.Thrown JsError unit (mkError "Internal Server Error" (Some (mkResponse 500))) in
  ok (List.map roleName (selection st)) "ds" = Js.Returned tt
  /\ roleData (snd (handleDelete "ds" ko (snd (handleDelete "ds" ok st)))) = [r1].
Proof.
  intros r1 r2 st ok ko. split; [reflexivity |].
  exact (proj1 (handleDelete_again "ds" ok ko st eq_refl)).
Defined.

End RoleListMore.

(** ** The role list panel: fetch and rendering *)

Module RoleListFetch.
Import RoleList RoleListView.

(** The test of the [catch] block: the error carries a response whose status
    is 400 or 403. *)
Lemma access_error_test (e : JsError) :
  match response e with
  | Some r => includes [400; 403]%Z (status r)
  | None => false
  end = true
  <-> exists r, response e = Some r /\ (status r = 400 \/ status r = 403)%Z.
Proof.
  destruct (response e) as [r |].
  - unfold includes. cbn [existsb]. rewrite orb_false_r, orb_true_iff, !Z.eqb_eq.
    split; [intros H; by exists r | intros (r' & [= <-] & H); exact H].
  - split; [discriminate | intros (r & Hr & _); discriminate].
Qed.

Section Fetch.
Context {RawRoleData RawRoleMappingData : Type}.
Variable dataSource_id : string.
Variable fetchRole : string -> Js.completion JsError RawRoleData.
Variable fetchRoleMapping : string -> Js.completion JsError RawRoleMappingData.
Variable transformRoleData :
  RawRoleData -> RawRoleMappingData -> Js.completion JsError (list RoleListing).

Local Abbreviation try_block :=
  (fetchData_try dataSource_id fetchRole fetchRoleMapping transformRoleData).
Local Abbreviation fetch :=
  (fetchData dataSource_id fetchRole fetchRoleMapping transformRoleData).

(** The [try] block completes exactly when the two requests and the
    transformation do, and throws the error of the first of them that
    fails. *)
Lemma fetchData_try_cases (st : State) :
  (exists raw mapping data,
     fetchRole dataSource_id = Js.Returned raw
     /\ fetchRoleMapping dataSource_id = Js.Returned mapping
     /\ transformRoleData raw mapping = Js.Returned data
     /\ try_block st
        = (Js.Returned tt,
           mkState data false (selection st) true false (actionsMenuOpen st)))
  \/ (exists e,
        try_block st = (Js.Thrown e, setLoading true st)
        /\ (fetchRole dataSource_id = Js.Thrown e
            \/ (exists raw,
                  fetchRole dataSource_id = Js.Returned raw
                  /\ (fetchRoleMapping dataSource_id = Js.Thrown e
                      \/ exists mapping,
                           fetchRoleMapping dataSource_id = Js.Returned mapping
                           /\ transformRoleData raw mapping = Js.Thrown e)))).
Proof.
  unfold fetchData_try, Js.bind, Js.modify, await.
  destruct (fetchRole dataSource_id) as [raw | e]; [| right; exists e; by auto].
  destruct (fetchRoleMapping dataSource_id) as [mapping | e];
    [| right; exists e; split; [done |]; right; exists raw; by auto].
  destruct (transformRoleData raw mapping) as [data | e] eqn:Htransform.
  - left. exists raw, mapping, data. by repeat split.
  - right. exists e. split; [done |]. right. exists raw. split; [done |].
    right. by exists mapping.
Qed.

(** The state a successful fetch leaves. *)
Lemma fetchData_succeeded (st : State) (u : unit) (st1 : State) :
  try_block st = (Js.Returned u, st1) ->
  fetch st
  = (Js.Returned tt,
     mkState (roleData st1) false (selection st) false false (actionsMenuOpen st)).
Proof.
  intros Htry. unfold fetchData, Js.try_catch_finally. rewrite Htry.
  destruct (fetchData_try_cases st) as [(raw & mapping & data & _ & _ & _ & Hok) | (e & Hko & _)];
    rewrite Htry in *; [| discriminate].
  by injection Hok as -> ->.
Qed.

(** The state a failed fetch leaves. *)
Lemma fetchData_failed (st : State) (e : JsError) (st1 : State) :
  try_block st = (Js.Thrown e, st1) ->
  fetch st
  = (Js.Returned tt,
     mkState (roleData st) true (selection st) false
       (accessErrorFlag st
        || match response e with
           | Some r => includes [400; 403]%Z (status r)
           | None => false
           end)
       (actionsMenuOpen st)).
Proof.
  intros Htry. pose proof (RoleListFacts.fetchData_try_thrown _ _ _ _ _ _ _ Htry) as ->.
  unfold fetchData, Js.try_catch_finally. rewrite Htry.
  unfold fetchData_catch, console_log, Js.bind, Js.ret, Js.modify.
  destruct (response e) as [r |]; [destruct (includes _ (status r)) |];
    cbn; by rewrite ?orb_true_r, ?orb_false_r.
Qed.

(** X8. [fetchData] never throws; when it is done the loading indicator is
    off, and selection and actions menu are as before. A failed fetch leaves
    the role data that was there; a successful one replaces it with the
    transformed data. *)
Theorem fetchData_frame (st : State) :
  let st' := snd (fetch st) in
  fst (fetch st) = Js.Returned tt
  /\ loading st' = false
  /\ selection st' = selection st
  /\ actionsMenuOpen st' = actionsMenuOpen st
  /\ (forall e st1, try_block st = (Js.Thrown e, st1) -> roleData st' = roleData st)
  /\ (forall raw mapping data,
        fetchRole dataSource_id = Js.Returned raw ->
        fetchRoleMapping dataSource_id = Js.Returned mapping ->
        transformRoleData raw mapping = Js.Returned data ->
        roleData st' = data).
Proof.
  cbv zeta.
  destruct (fetchData_try_cases st)
    as [(raw & mapping & data & Hraw & Hmapping & Hdata & Hok) | (e & Hko & _)].
  - rewrite (fetchData_succeeded _ _ _ Hok).
    cbn [fst snd loading selection actionsMenuOpen roleData].
    repeat split; [intros e st1 Hko; rewrite Hok in Hko; discriminate |].
    intros raw' mapping' data' Hraw' Hmapping' Hdata'. congruence.
  - rewrite (fetchData_failed _ _ _ Hko).
    cbn [fst snd loading selection actionsMenuOpen roleData]. repeat split.
    intros raw mapping data Hraw Hmapping Hdata.
    destruct (fetchData_try_cases st)
      as [(raw' & mapping' & data' & _ & _ & _ & Hok) | (e' & _ & Hwhich)].
    + rewrite Hok in Hko. discriminate.
    + destruct Hwhich as [? | (raw' & ? & [? | (mapping' & ? & ?)])]; congruence.
Qed.

(** X9. A failed fetch never clears the access-error flag: if it was set
    before, the access error component is what the panel shows afterwards,
    whatever the new failure is. *)
Theorem fetchData_access_error_sticky
    (st : State) (e : JsError) (st1 : State) (isMultiTenancyEnabled : bool) :
  try_block st = (Js.Thrown e, st1) ->
  accessErrorFlag st = true ->
  accessErrorFlag (snd (fetch st)) = true
  /\ page_body (renderRoleList (snd (fetch st)) isMultiTenancyEnabled)
     = AccessErrorComponent false.
Proof.
  intros Htry Hset. rewrite (fetchData_failed _ _ _ Htry). cbn. by rewrite Hset.
Qed.

(** X10. After a successful fetch, from any state, the panel shows the page
    content: the table holds the transformed data, is not in loading mode,
    has no error message, and the header counts the new rows. *)
Theorem renderRoleList_after_success
    (st : State) (isMultiTenancyEnabled : bool)
    (raw : RawRoleData) (mapping : RawRoleMappingData) (data : list RoleListing) :
  fetchRole dataSource_id = Js.Returned raw ->
  fetchRoleMapping dataSource_id = Js.Returned mapping ->
  transformRoleData raw mapping = Js.Returned data ->
  renderRoleList (snd (fetch st)) isMultiTenancyEnabled
  = mkRendered (length data)
      (PageContent
         (mkTable false (getColumnList isMultiTenancyEnabled) data "roleName" EmptyString)).
Proof.
  intros Hraw Hmapping Hdata.
  destruct (fetchData_try_cases st)
    as [(raw' & mapping' & data' & Hraw' & Hmapping' & Hdata' & Hok) | (e & _ & Hwhich)].
  - rewrite (fetchData_succeeded _ _ _ Hok). cbn.
    assert (data' = data) as -> by congruence. reflexivity.
  - destruct Hwhich as [? | (raw' & ? & [? | (mapping' & ? & ?)])]; congruence.
Qed.

(** X11. After a fetch that failed with an HTTP status of 400 or 403, the
    panel shows the access error component in place of the table. *)
Theorem renderRoleList_after_access_error
    (st : State) (isMultiTenancyEnabled : bool)
    (e : JsError) (st1 : State) (r : HttpResponse) :
  try_block st = (Js.Thrown e, st1) ->
  response e = Some r ->
  (status r = 400 \/ status r = 403)%Z ->
  page_body (renderRoleList (snd (fetch st)) isMultiTenancyEnabled)
  = AccessErrorComponent false.
Proof.
  intros Htry Hresponse Hstatus. rewrite (fetchData_failed _ _ _ Htry).
  unfold renderRoleList. cbn [snd loading accessErrorFlag roleData errorFlag page_body].
  assert (Htest : match response e with
                  | Some r => includes [400; 403]%Z (status r)
                  | None => false
                  end = true) by (apply access_error_test; eauto).
  by rewrite Htest, orb_true_r.
Qed.

(** X12. After a fetch that failed for another reason, with the access-error
    flag clear before, the panel shows the table with the rows it had, not in
    loading mode, and with the load-failed message. *)
Theorem renderRoleList_after_other_error
    (st : State) (isMultiTenancyEnabled : bool) (e : JsError) (st1 : State) :
  try_block st = (Js.Thrown e, st1) ->
  accessErrorFlag st = false ->
  (forall r, response e = Some r -> status r <> 400%Z /\ status r <> 403%Z) ->
  renderRoleList (snd (fetch st)) isMultiTenancyEnabled
  = mkRendered (length (roleData st))
      (PageContent
         (mkTable false (getColumnList isMultiTenancyEnabled) (roleData st) "roleName"
            "Load data failed, please check console log for more detail.")).
Proof.
  intros Htry Hclear Hother. rewrite (fetchData_failed _ _ _ Htry).
  unfold renderRoleList. cbn [snd loading accessErrorFlag roleData errorFlag page_body].
  assert (Htest : match response e with
                  | Some r => includes [400; 403]%Z (status r)
                  | None => false
                  end = false).
  { apply not_true_is_false. intros Htest.
    apply access_error_test in Htest as (r & Hr & Hstatus).
    destruct (Hother r Hr). tauto. }
  by rewrite Htest, Hclear.
Qed.

End Fetch.

(** X13. When the roles request fails, the mapping request and the
    transformation have no part in the result: the state [fetchData] leaves
    is the same whatever they would have answered. *)
Theorem fetchData_first_failure
    {RawRoleData RawRoleMappingData : Type} (dataSource_id : string)
    (fetchRole : string -> Js.completion JsError RawRoleData)
    (fetchRoleMapping1 fetchRoleMapping2 : string -> Js.completion JsError RawRoleMappingData)
    (transformRoleData1 transformRoleData2 :
       RawRoleData -> RawRoleMappingData -> Js.completion JsError (list RoleListing))
    (st : State) (e : JsError) :
  fetchRole dataSource_id = Js.Thrown e ->
  fetchData dataSource_id fetchRole fetchRoleMapping1 transformRoleData1 st
  = fetchData dataSource_id fetchRole fetchRoleMapping2 transformRoleData2 st
  /\ errorFlag (snd (fetchData dataSource_id fetchRole fetchRoleMapping1
                       transformRoleData1 st)) = true.
Proof.
  intros Hrole.
  assert (Htry : forall (mapping : string -> Js.completion JsError RawRoleMappingData)
                         transform,
             fetchData_try dataSource_id fetchRole mapping transform st
             = (Js.Thrown e, setLoading true st)).
  { intros mapping transform. unfold fetchData_try, Js.bind, Js.modify, await.
    by rewrite Hrole. }
  by rewrite !(fetchData_failed _ _ _ _ _ _ _ (Htry _ _)).
Qed.

(** X9, at a refetch that fails with status 500 after an access error. *)
Lemma fetchData_access_error_sticky_500 :
  let e := mkError "Internal Server Error" (Some (mkResponse 500)) in
  let fetchRole := fun _ : string => @Js.Thrown JsError unit e in
  let fetchRoleMapping := fun _ : string => @Js.Returned JsError unit tt in
  let transformRoleData := fun _ _ : unit => @Js.Returned JsError (list RoleListing) [] in
  let st := mkState [] true [] false true false in
  fetchData_try "ds" fetchRole fetchRoleMapping transformRoleData st
  = (Js.Thrown e, setLoading true st)
  /\ accessErrorFlag st = true
  /\ accessErrorFlag (snd (fetchData "ds" fetchRole fetchRoleMapping transformRoleData st))
     = true
  /\ page_body (renderRoleList
                  (snd (fetchData "ds" fetchRole fetchRoleMapping transformRoleData st))
                  true)
     = AccessErrorComponent false.
Proof.
  intros e fetchRole fetchRoleMapping transformRoleData st.
  split; [reflexivity |]. split; [reflexivity |].
  exact (fetchData_access_error_sticky "ds" fetchRole fetchRoleMapping transformRoleData
           st e (setLoading true st) true eq_refl eq_refl).
Defined.

(** X10, at a fetch that returns one role. *)
Lemma renderRoleList_after_success_example :
  let r1 := mkRole 1 "all_access" true [] [] [] [] [] in
  let fetchRole := fun _ : string => @Js.Returned JsError unit tt in
  let fetchRoleMapping := fun _ : string => @Js.Returned JsError unit tt in
  let transformRoleData := fun _ _ : unit => @Js.Returned JsError (list RoleListing) [r1] in
  fetchRole "ds" = Js.Returned tt
  /\ fetchRoleMapping "ds" = Js.Returned tt
  /\ transformRoleData tt tt = Js.Returned [r1]
  /\ renderRoleList
       (snd (fetchData "ds" fetchRole fetchRoleMapping transformRoleData initialState))
       false
     = mkRendered 1 (PageContent (mkTable false (getColumnList false) [r1] "roleName"
                                    EmptyString)).
Proof.
  intros r1 fetchRole fetchRoleMapping transformRoleData.
  split; [reflexivity |]. split; [reflexivity |]. split; [reflexivity |].
  exact (renderRoleList_after_success "ds" fetchRole fetchRoleMapping transformRoleData
           initialState false tt tt [r1] eq_refl eq_refl eq_refl).
Defined.

(** X11, at a first fetch rejected with status 403. *)
Lemma renderRoleList_after_access_error_403 :
  let e := mkError "Forbidden" (Some (mkResponse 403)) in
  let fetchRole := fun _ : string => @Js.Thrown JsError unit e in
  let fetchRoleMapping := fun _ : string => @Js.Returned JsError unit tt in
  let transformRoleData := fun _ _ : unit => @Js.Returned JsError (list RoleListing) [] in
  fetchData_try "ds" fetchRole fetchRoleMapping transformRoleData initialState
  = (Js.Thrown e, setLoading true initialState)
  /\ response e = Some (mkResponse 403)
  /\ (status (mkResponse 403) = 400 \/ status (mkResponse 403) = 403)%Z
  /\ page_body (renderRoleList
                  (snd (fetchData "ds" fetchRole fetchRoleMapping transformRoleData
                          initialState))
                  true)
     = AccessErrorComponent false.
Proof.
  intros e fetchRole fetchRoleMapping transformRoleData.
  assert (Hstatus : (status (mkResponse 403) = 400 \/ status (mkResponse 403) = 403)%Z)
    by (right; reflexivity).
  split; [reflexivity |]. split; [reflexivity |]. split; [exact Hstatus |].
  exact (renderRoleList_after_access_error "ds" fetchRole fetchRoleMapping
           transformRoleData initialState true e (setLoading true initialState)
           (mkResponse 403) eq_refl eq_refl Hstatus).
Defined.

(** X12, at a first fetch that fails without a response. *)
Lemma renderRoleList_after_other_error_network :
  let e := mkError "Failed to fetch" None in
  let fetchRole := fun _ : string => @Js.Thrown JsError unit e in
  let fetchRoleMapping := fun _ : string => @Js.Returned JsError unit tt in
  let transformRoleData := fun _ _ : unit => @Js.Returned JsError (list RoleListing) [] in
  fetchData_try "ds" fetchRole fetchRoleMapping transformRoleData initialState
  = (Js.Thrown e, setLoading true initialState)
  /\ accessErrorFlag initialState = false
  /\ (forall r, response e = Some r -> status r <> 400%Z /\ status r <> 403%Z)
  /\ renderRoleList
       (snd (fetchData "ds" fetchRole fetchRoleMapping transformRoleData initialState))
       true
     = mkRendered 0
         (PageContent
            (mkTable false (getColumnList true) [] "roleName"
               "Load data failed, please check console log for more detail.")).
Proof.
  intros e fetchRole fetchRoleMapping transformRoleData.
  assert (Hother : forall r, response e = Some r -> status r <> 400%Z /\ status r <> 403%Z)
    by (intros r Hr; discriminate Hr).
  split; [reflexivity |]. split; [reflexivity |]. split; [exact Hother |].
  exact (renderRoleList_after_other_error "ds" fetchRole fetchRoleMapping
           transformRoleData initialState true e (setLoading true initialState)
           eq_refl eq_refl Hother).
Defined.

(** X13, at a roles request rejected with status 403. *)
Lemma fetchData_first_failure_example :
  let e := mkError "Forbidden" (Some (mkResponse 403)) in
  let fetchRole := fun _ : string => @Js.Thrown JsError unit e in
  let mapping_ok := fun _ : string => @Js.Returned JsError unit tt in
  let mapping_ko := fun _ : string =>
    @Js.Thrown JsError unit (mkError "Internal Server Error" (Some (mkResponse 500))) in
  let transformRoleData := fun _ _ : unit => @Js.Returned JsError (list RoleListing) [] in
  fetchRole "ds" = Js.Thrown e
  /\ fetchData "ds" fetchRole mapping_ok transformRoleData initialState
     = fetchData "ds" fetchRole mapping_ko transformRoleData initialState.
Proof.
  intros e fetchRole mapping_ok mapping_ko transformRoleData.
  split; [reflexivity |].
  exact (proj1 (fetchData_first_failure "ds" fetchRole mapping_ok mapping_ko
                  transformRoleData transformRoleData initialState e eq_refl)).
Defined.

End RoleListFetch.

(** ** The role list panel: columns, filters and the actions menu *)

Module RoleListViewFacts.
Import RoleList RoleListView.

(** X14. The columns have distinct fields; the Tenants column is present
    exactly when multi-tenancy is enabled, and the column list without
    multi-tenancy is the one with it minus that column, in the same order;
    the first column is the one the table uses as item id. *)
Theorem getColumnList_fields (multitenancyEnabled : bool) (st : State) :
  NoDup (field <$> getColumnList multitenancyEnabled)
  /\ ("tenantPermissions" ∈ field <$> getColumnList multitenancyEnabled
      <-> multitenancyEnabled = true)
  /\ getColumnList false
     = filter (fun c => field c <> "tenantPermissions") (getColumnList true)
  /\ (forall table,
        page_body (renderRoleList st multitenancyEnabled) = PageContent table ->
        field <$> head (table_columns table) = Some (table_itemId table)).
Proof.
  split; [| split; [| split]].
  - destruct multitenancyEnabled; refine (bool_decide_unpack _ _); vm_compute; exact I.
  - destruct multitenancyEnabled.
    + split; [done |]. intros _. refine (bool_decide_unpack _ _). vm_compute. exact I.
    + split; [| discriminate]. intros Hin. exfalso. revert Hin.
      refine (bool_decide_unpack _ _). vm_compute. exact I.
  - reflexivity.
  - intros table. unfold renderRoleList. cbn [page_body].
    destruct (loading st); [discriminate |].
    destruct (accessErrorFlag st); [discriminate |].
    intros [= <-]. by destruct multitenancyEnabled.
Qed.

Section Filters.
Context {FilterOption : Type}.
Variable buildSearchFilterOptions : list RoleListing -> string -> list FilterOption.

Local Abbreviation filters := (searchFilters buildSearchFilterOptions).

(** X15. The search filters are, in order, the columns after the Role column:
    each filter has the field and the name of its column, for both settings
    of multi-tenancy. *)
Theorem searchFilters_match_columns
    (roleData : list RoleListing) (isMultiTenancyEnabled : bool) :
  (fun f => (filter_field f, filter_name f)) <$> filters roleData isMultiTenancyEnabled
  = (fun c => (field c, name c)) <$> tail (getColumnList isMultiTenancyEnabled).
Proof. by destruct isMultiTenancyEnabled. Qed.

(** X16. Every search filter but the one on [reserved] takes its options from
    [buildSearchFilterOptions] applied to the current role data and to the
    filter's own field, and allows several values; the filter on [reserved]
    offers [true] and [false] and allows one value. *)
Theorem searchFilters_options
    (roleData : list RoleListing) (isMultiTenancyEnabled : bool)
    (f : SearchFilter FilterOption) :
  f ∈ filters roleData isMultiTenancyEnabled ->
  filter_type f = "field_value_selection"
  /\ (if decide (filter_field f = "reserved")
      then options f = ValueOptions [true; false] /\ multiSelect f = MultiSelectOff
      else options f = BuiltOptions (buildSearchFilterOptions roleData (filter_field f))
           /\ multiSelect f = MultiSelectOr).
Proof.
  intros Hin. unfold searchFilters in Hin.
  destruct isMultiTenancyEnabled; cbn in Hin;
    repeat (apply elem_of_cons in Hin as [-> | Hin]; [by cbn |]);
    by apply elem_of_nil in Hin.
Qed.

End Filters.

(** X16, at the filter on [reserved] of an empty table. *)
Lemma searchFilters_options_reserved :
  let build := fun (_ : list RoleListing) (field : string) => [field] in
  let f := mkFilter "field_value_selection" "reserved" "Customization" MultiSelectOff
             (@ValueOptions string [true; false]) in
  f ∈ searchFilters build [] true
  /\ filter_type f = "field_value_selection"
  /\ options f = ValueOptions [true; false]
  /\ multiSelect f = MultiSelectOff.
Proof.
  intros build f.
  assert (Hin : f ∈ searchFilters build [] true).
  { unfold searchFilters. cbn. do 5 apply list_elem_of_further. apply list_elem_of_here. }
  split; [exact Hin |].
  exact (searchFilters_options build [] true f Hin).
Defined.

Section MultiTenancy.
Variable getDashboardsInfoSafe : Js.completion JsError (option DashboardsInfo).
Variable config_multitenancy_enabled : bool.

Local Abbreviation effect :=
  (fetchIsMultiTenancyEnabled getDashboardsInfoSafe config_multitenancy_enabled).

(** X17. The multi-tenancy effect never throws. Starting from the initial
    value, the Tenants column is hidden afterwards exactly when the
    dashboards info request succeeded and either the configuration disables
    multi-tenancy or the answer does not report it enabled; a failed request
    leaves the column shown. *)
Theorem fetchIsMultiTenancyEnabled_hides_tenants :
  let enabled := snd (effect isMultiTenancyEnabled_initial) in
  fst (effect isMultiTenancyEnabled_initial) = Js.Returned tt
  /\ ("tenantPermissions" ∉ field <$> getColumnList enabled
      <-> exists info,
            getDashboardsInfoSafe = Js.Returned info
            /\ (config_multitenancy_enabled = false
                \/ info = None
                \/ exists i, info = Some i /\ multitenancy_enabled i <> Some true)).
Proof.
  cbv zeta.
  assert (Hcol : forall b, "tenantPermissions" ∉ field <$> getColumnList b <-> b = false).
  { intros [|]; split; try done.
    - intros Hnot. exfalso. apply Hnot. refine (bool_decide_unpack _ _). vm_compute. exact I.
    - intros _. refine (bool_decide_unpack _ _). vm_compute. exact I. }
  rewrite Hcol.
  unfold fetchIsMultiTenancyEnabled, try_catch, Js.bind, Js.modify, Js.ret,
    isMultiTenancyEnabled_initial.
  destruct getDashboardsInfoSafe as [info | e]; cbn [fst snd].
  - split; [reflexivity |]. rewrite andb_false_iff. split.
    + intros [Hinfo | Hconfig]; exists info; split; try done; [| by left].
      right. destruct info as [[[[|] |]] |]; cbn in Hinfo; try discriminate.
      * right. eexists. split; [done |]. discriminate.
      * right. eexists. split; [done |]. discriminate.
      * by left.
    + intros (info' & [= <-] & [Hconfig | [-> | (i & -> & Hi)]]);
        [by right | by left |].
      left. destruct i as [[[|] |]]; cbn; done.
  - split; [reflexivity |]. split; [discriminate |].
    intros (info & Habs & _). discriminate.
Qed.

End MultiTenancy.

(** X18. An enabled Edit button comes with enabled Duplicate and Delete
    buttons; Duplicate is enabled exactly for a selection of one row; and for
    a selection of one row Edit and Delete are disabled together. *)
Theorem actionsMenuItems_enabled_together (selection : list RoleListing) :
  (edit_disabled selection = Some false ->
   duplicate_disabled selection = Some false /\ delete_disabled selection = Some false)
  /\ (duplicate_disabled selection = Some false <-> length selection = 1)
  /\ (length selection = 1 -> edit_disabled selection = delete_disabled selection).
Proof.
  unfold edit_disabled, duplicate_disabled, delete_disabled.
  destruct selection as [| r [| r' rest]]; cbn.
  - split; [discriminate |]. split; [| discriminate]. split; discriminate.
  - rewrite orb_false_r. split; [by intros [= ->] |]. split; [done | done].
  - split; [discriminate |]. split; [| discriminate]. split; discriminate.
Qed.

Section Navigation.
Context {ResourceType Action : Type}.
Variable ResourceType_roles : ResourceType.
Variables Action_edit Action_duplicate : Action.
Variable buildHashUrl : ResourceType -> Action -> option string -> string.

Local Abbreviation on_edit := (edit_onClick ResourceType_roles Action_edit buildHashUrl).
Local Abbreviation on_duplicate :=
  (duplicate_onClick ResourceType_roles Action_duplicate buildHashUrl).

(** X19. The click handlers of Edit and Duplicate throw exactly on an empty
    selection, where both buttons are disabled; on an enabled button the
    handler goes to the URL built for the one selected role. *)
Theorem onClick_defined_when_enabled (selection : list RoleListing) :
  (on_edit selection = None <-> selection = [])
  /\ (on_duplicate selection = None <-> selection = [])
  /\ (selection = [] ->
      edit_disabled selection = Some true /\ duplicate_disabled selection = Some true)
  /\ (edit_disabled selection = Some false ->
      exists r, selection = [r]
                /\ on_edit selection
                   = Some (buildHashUrl ResourceType_roles Action_edit (Some (roleName r))))
  /\ (duplicate_disabled selection = Some false ->
      exists r, selection = [r]
                /\ on_duplicate selection
                   = Some (buildHashUrl ResourceType_roles Action_duplicate
                             (Some (roleName r)))).
Proof.
  unfold edit_onClick, duplicate_onClick, edit_disabled, duplicate_disabled.
  destruct selection as [| r [| r' rest]]; cbn.
  - repeat split; discriminate.
  - repeat split; try discriminate; intros _; by exists r.
  - repeat split; discriminate.
Qed.

End Navigation.

End RoleListViewFacts.
